(** * Zero-To-GenAI: conversation memory, the web chat page and the CLI researcher

    A shallow embedding of

    - [03-API-Interactions/simple_chatbot.py]  (module [Chat]),
    - [05-Projects/web_chatbot.py]             (module [WebChat]),
    - [05-Projects/cli_researcher.py]          (module [Researcher]),

    and the properties of the conversation store, the file-name sanitiser and
    the argument validation that the specification states.

    Conventions.  A Python [str] is a [string], one [ascii] per character (the
    code points below 256).  A message dict with the keys role and content is the
    record [Turn].  The OpenAI client is the only collaborator that is not in
    the repository: every script takes it as a function from the request it is
    sent to the reply it gives, and the requests sent are logged in the state,
    so that what was sent, and when, can be stated. *)

From Stdlib Require Import String Ascii List ZArith Bool Lia.
From Stdlib Require QArith_base.
From Stdlib Require Import DecimalString.
Import ListNotations.

Local Open Scope string_scope.
Local Open Scope list_scope.

(* ===================================================================== *)
(** * Python's [str] operations used by the scripts *)
(* ===================================================================== *)

Module PyStr.

(** The double-quote and backslash characters, by code point. *)
Definition dquote : ascii := ascii_of_nat 34.
Definition backslash : ascii := ascii_of_nat 92.
Definition newline : string := String (ascii_of_nat 10) EmptyString.

(** [len(s)] *)
Definition len (s : string) : nat := String.length s.

(** [s[:n]] *)
Fixpoint take (n : nat) (s : string) : string :=
  match n, s with
  | O, _ => EmptyString
  | S _, EmptyString => EmptyString
  | S n', String c s' => String c (take n' s')
  end.

(** [s.replace(a, b)] for one-character [a] and [b]. *)
Fixpoint replace_char (a b : ascii) (s : string) : string :=
  match s with
  | EmptyString => EmptyString
  | String c s' => String (if Ascii.eqb c a then b else c) (replace_char a b s')
  end.

(** [re.sub('[...]', '', s)] for a character class given by its members. *)
Fixpoint mem (c : ascii) (class : list ascii) : bool :=
  match class with
  | [] => false
  | d :: class' => Ascii.eqb c d || mem c class'
  end.

Fixpoint sub_class_empty (class : list ascii) (s : string) : string :=
  match s with
  | EmptyString => EmptyString
  | String c s' =>
      if mem c class then sub_class_empty class s'
      else String c (sub_class_empty class s')
  end.

(** [c in s] for a character [c]. *)
Fixpoint contains (c : ascii) (s : string) : bool :=
  match s with
  | EmptyString => false
  | String d s' => Ascii.eqb c d || contains c s'
  end.

(** Truthiness of a [str]: the empty string is falsy. *)
Definition truthy (s : string) : bool :=
  match s with EmptyString => false | String _ _ => true end.

(** [a or b] on strings. *)
Definition or_else (a b : string) : string := if truthy a then a else b.

(** [c.isspace()] on the code points below 256. *)
Definition isspace (c : ascii) : bool :=
  let n := nat_of_ascii c in
  (((9 <=? n) && (n <=? 13)) || ((28 <=? n) && (n <=? 32))
   || (n =? 133) || (n =? 160))%nat.

(** [s.lstrip()], [s.rstrip()] and [s.strip()]. *)
Fixpoint lstrip (s : string) : string :=
  match s with
  | EmptyString => EmptyString
  | String c s' => if isspace c then lstrip s' else s
  end.

Fixpoint rstrip (s : string) : string :=
  match s with
  | EmptyString => EmptyString
  | String c s' =>
      match rstrip s' with
      | EmptyString => if isspace c then EmptyString else String c EmptyString
      | r => String c r
      end
  end.

Definition strip (s : string) : string := rstrip (lstrip s).

(** [c.lower()] on the code points below 256: the ASCII capitals and the
    Latin-1 capitals 0xC0..0xDE other than the sign 0xD7. *)
Definition lower_char (c : ascii) : ascii :=
  let n := nat_of_ascii c in
  if (((65 <=? n) && (n <=? 90))
      || ((192 <=? n) && (n <=? 222) && negb (n =? 215)))%nat
  then ascii_of_nat (n + 32) else c.

Fixpoint lower (s : string) : string :=
  match s with
  | EmptyString => EmptyString
  | String c s' => String (lower_char c) (lower s')
  end.

(** [s.upper()] on ASCII text (it is applied to role names only). *)
Definition upper_char (c : ascii) : ascii :=
  let n := nat_of_ascii c in
  if ((97 <=? n) && (n <=? 122))%nat then ascii_of_nat (n - 32) else c.

Fixpoint upper (s : string) : string :=
  match s with
  | EmptyString => EmptyString
  | String c s' => String (upper_char c) (upper s')
  end.

(** [str(n)] and the [{n}] of an f-string, for an [int]. *)
Definition of_int (z : Z) : string := NilZero.string_of_int (Z.to_int z).
Definition of_nat (n : nat) : string := of_int (Z.of_nat n).

(** [value in [s1, s2, ...]] on strings. *)
Fixpoint in_list (s : string) (l : list string) : bool :=
  match l with
  | [] => false
  | t :: l' => String.eqb s t || in_list s l'
  end.

(** [s.endswith(c)] for a character. *)
Fixpoint ends_with_char (c : ascii) (s : string) : bool :=
  match s with
  | EmptyString => false
  | String d EmptyString => Ascii.eqb c d
  | String _ s' => ends_with_char c s'
  end.

End PyStr.


(* ===================================================================== *)
(** * The chat-completions interface, as the scripts use it *)
(* ===================================================================== *)

Module Api.

(** The three values the scripts give to the role key. *)
Inductive Role : Type := system | user | assistant.

Definition Role_eqb (a b : Role) : bool :=
  match a, b with
  | system, system | user, user | assistant, assistant => true
  | _, _ => false
  end.

Definition role_name (r : Role) : string :=
  match r with
  | system => "system"
  | user => "user"
  | assistant => "assistant"
  end.

(** One message dict. *)
Record Turn : Type := mkTurn { role : Role; content : string }.

(** The keyword arguments of [client.chat.completions.create]. *)
Record Request : Type := mkRequest {
  model : string;
  messages : list Turn;
  temperature : option QArith_base.Q;
  max_tokens : option Z;
  stream : bool
}.

(** The exceptions the scripts tell apart. *)
Inductive exn : Type :=
| OpenAIError (msg : string)
| IOError (msg : string)
| OtherException (msg : string).

Definition is_OpenAIError (e : exn) : bool :=
  match e with OpenAIError _ => true | _ => false end.

Definition is_IOError (e : exn) : bool :=
  match e with IOError _ => true | _ => false end.

(** What a call without [stream] gives: it raises, or it returns a response
    whose [choices[0].message.content] is the text. *)
Inductive Completion : Type :=
| Raises (e : exn)
| Returns (text : string).

(** What a call with [stream=True] gives: it raises, or it returns a stream.
    Iterating the stream yields the [choices[0].delta.content] of each chunk
    ([None] or a fragment), then ends, or raises [failure] instead of ending. *)
Record Stream : Type := mkStream {
  chunks : list (option string);
  failure : option exn
}.

Inductive Streaming : Type :=
| StreamRaises (e : exn)
| StreamReturns (st : Stream).

End Api.
Import Api.

(* ===================================================================== *)
(** * Control flow and mutable state of a script *)
(* ===================================================================== *)

Module Py.

(** How a statement can end other than by falling through: an exception of
    class [Exception], [sys.exit(code)], or Streamlit's [st.stop()].  The
    last two are not instances of [Exception]: no [except Exception]
    catches them. *)
Inductive signal : Type :=
| Exc (e : exn)
| SystemExit (code : Z)
| StopException.

Inductive outcome (A : Type) : Type :=
| Normal (a : A)
| Abrupt (sig : signal).
Arguments Normal {A} a.
Arguments Abrupt {A} sig.

(** A computation over the script's state [W]; the state it leaves is kept
    whichever way it ends: nothing undoes a mutation when an exception
    propagates. *)
Definition M (W A : Type) : Type := W -> outcome A * W.

Definition ret {W A} (a : A) : M W A := fun w => (Normal a, w).

Definition bind {W A B} (m : M W A) (k : A -> M W B) : M W B :=
  fun w =>
    match m w with
    | (Normal a, w') => k a w'
    | (Abrupt sig, w') => (Abrupt sig, w')
    end.

Definition raise {W A} (e : exn) : M W A := fun w => (Abrupt (Exc e), w).
Definition sys_exit {W A} (code : Z) : M W A := fun w => (Abrupt (SystemExit code), w).
Definition st_stop {W A} : M W A := fun w => (Abrupt StopException, w).

Definition get {W} : M W W := fun w => (Normal w, w).
Definition modify {W} (f : W -> W) : M W unit := fun w => (Normal tt, f w).

(** [try: body / except C as e: handler e], [handles] saying which
    exceptions are instances of [C]. *)
Definition try_except {W A} (body : M W A) (handles : exn -> bool)
    (handler : exn -> M W A) : M W A :=
  fun w =>
    match body w with
    | (Abrupt (Exc e), w') =>
        if handles e then handler e w' else (Abrupt (Exc e), w')
    | r => r
    end.

Definition any_Exception (_ : exn) : bool := true.

(** The value a computation ends with, and the state it leaves. *)
Definition result {W A} (m : M W A) (w : W) : outcome A := fst (m w).
Definition exec {W A} (m : M W A) (w : W) : W := snd (m w).

(** [enumerate(l)] *)
Definition enumerate {A} (l : list A) : list (nat * A) :=
  combine (seq 0 (length l)) l.

Module Notations.
Declare Scope py_scope.
Delimit Scope py_scope with py.
Notation "x <- c ;; k" := (bind c (fun x => k))
  (at level 61, c at next level, right associativity) : py_scope.
Notation "c ;; k" := (bind c (fun _ => k))
  (at level 61, right associativity) : py_scope.
End Notations.

End Py.
Import Py Py.Notations.

(* ===================================================================== *)
(** * 03-API-Interactions/simple_chatbot.py *)
(* ===================================================================== *)

Module Chat.

(** What [main] prints, one constructor per message; the parts that vary
    are the arguments. *)
Inductive output : Type :=
| Banner
| Goodbye                          (* on KeyboardInterrupt or EOFError *)
| GoodbyeThanks                    (* on quit, exit or q *)
| PleaseType                       (* on an empty line *)
| History (entries : list string)  (* on history *)
| AI (response : string)
| Error (e : exn).

(** The module's global list, the requests sent so far, and the terminal. *)
Record State : Type := mkState {
  conversation_history : list Turn;
  requests : list Request;
  stdout : list output
}.

Definition system_prompt : string :=
  "You are a helpful, friendly AI assistant. Keep responses concise but informative.".

Definition initial : State :=
  {| conversation_history := [mkTurn system system_prompt];
     requests := [];
     stdout := [] |}.

Definition append (t : Turn) : M State unit :=
  modify (fun s => {| conversation_history := conversation_history s ++ [t];
                      requests := requests s;
                      stdout := stdout s |}).

Definition print (o : output) : M State unit :=
  modify (fun s => {| conversation_history := conversation_history s;
                      requests := requests s;
                      stdout := stdout s ++ [o] |}).

(** What [input()] gives: a line, or KeyboardInterrupt.  EOFError is the
    end of the list of events, see [main_loop]. *)
Inductive event : Type :=
| Line (raw : string)
| KeyboardInterrupt.

Inductive control : Type := Continue | Break.

Section Script.

(** [client.chat.completions.create], followed by reading
    [choices[0].message.content] off the response.  The request is logged
    with the messages the list holds when the call is made. *)
Variable complete : Request -> Completion.

Definition create (req : Request) : M State string :=
  fun s =>
    let s' := {| conversation_history := conversation_history s;
                 requests := requests s ++ [req];
                 stdout := stdout s |} in
    match complete req with
    | Raises e => (Abrupt (Exc e), s')
    | Returns text => (Normal text, s')
    end.

Definition chat_request (history : list Turn) : Request :=
  {| model := "gpt-4o-mini";
     messages := history;
     temperature := Some (QArith_base.Qmake 7 10);
     max_tokens := None;
     stream := false |}.

Definition chat (user_message : string) : M State string :=
  (append (mkTurn user user_message) ;;
   s <- get ;;
   assistant_message <- create (chat_request (conversation_history s)) ;;
   append (mkTurn assistant assistant_message) ;;
   ret assistant_message)%py.

(** One line of the history listing. *)
Definition history_entry (i : nat) (msg : Turn) : string :=
  let role := PyStr.upper (role_name (role msg)) in
  let content :=
    if (100 <? PyStr.len (content msg))%nat
    then (PyStr.take 100 (content msg) ++ "...")%string
    else content msg in
  (PyStr.of_nat (i + 1) ++ ". [" ++ role ++ "]: " ++ content)%string.

(** The body of [while True], given what [input()] did. *)
Definition loop_body (ev : event) : M State control :=
  match ev with
  | KeyboardInterrupt => (print Goodbye ;; ret Break)%py
  | Line raw =>
      let user_input := PyStr.strip raw in
      if PyStr.in_list (PyStr.lower user_input) ["quit"; "exit"; "q"]
      then (print GoodbyeThanks ;; ret Break)%py
      else if negb (PyStr.truthy user_input)
      then (print PleaseType ;; ret Continue)%py
      else if String.eqb (PyStr.lower user_input) "history"
      then (s <- get ;;
            print (History (map (fun '(i, msg) => history_entry i msg)
                                (enumerate (conversation_history s)))) ;;
            ret Continue)%py
      else try_except
             (response <- chat user_input ;;
              print (AI response) ;;
              ret Continue)%py
             any_Exception
             (fun e => print (Error e) ;; ret Continue)%py
  end.

Fixpoint main_loop (stdin : list event) : M State unit :=
  match stdin with
  | [] => print Goodbye
  | ev :: stdin' =>
      (c <- loop_body ev ;;
       match c with
       | Break => ret tt
       | Continue => main_loop stdin'
       end)%py
  end.

Definition main (stdin : list event) : M State unit :=
  (print Banner ;; main_loop stdin)%py.

End Script.

End Chat.

(* ===================================================================== *)
(** * 05-Projects/web_chatbot.py *)
(* ===================================================================== *)

Module WebChat.

(** What one run of the script puts on the page. *)
Inductive element : Type :=
| PageConfig
| Title
| Caption
| ErrorBox                                     (* st.error: no API key *)
| ChatMessage (r : Role) (text : string)       (* st.chat_message(r): st.markdown(text) *)
| Placeholder (text : string) (cursor : bool). (* message_placeholder.markdown *)

(** [st.session_state] (its only key is messages, absent until the first
    run), the requests sent so far, and the page. *)
Record State : Type := mkState {
  session_messages : option (list Turn);
  requests : list Request;
  page : list element
}.

Definition fresh : State :=
  {| session_messages := None; requests := []; page := [] |}.

Definition system_prompt : string := "You are a helpful AI assistant.".

Definition render (e : element) : M State unit :=
  modify (fun s => {| session_messages := session_messages s;
                      requests := requests s;
                      page := page s ++ [e] |}).

Definition set_messages (m : list Turn) : M State unit :=
  modify (fun s => {| session_messages := Some m;
                      requests := requests s;
                      page := page s |}).

(** Reading [st.session_state.messages]; an absent key is an AttributeError. *)
Definition get_messages : M State (list Turn) :=
  fun s =>
    match session_messages s with
    | Some m => (Normal m, s)
    | None => (Abrupt (Exc (OtherException "AttributeError")), s)
    end.

Definition append (t : Turn) : M State unit :=
  (m <- get_messages ;; set_messages (m ++ [t]))%py.

(** The loop that displays all messages except the system message. *)
Fixpoint display (msgs : list Turn) : M State unit :=
  match msgs with
  | [] => ret tt
  | message :: rest =>
      ((if negb (Role_eqb (role message) system)
        then render (ChatMessage (role message) (content message))
        else ret tt) ;;
       display rest)%py
  end.

(** [for chunk in stream], on the fragments the stream yields. *)
Fixpoint consume (deltas : list (option string)) (full_response : string)
    : M State string :=
  match deltas with
  | [] => ret full_response
  | None :: rest => consume rest full_response
  | Some fragment :: rest =>
      let full_response := (full_response ++ fragment)%string in
      (render (Placeholder full_response true) ;;
       consume rest full_response)%py
  end.

Section Script.

(** [client.chat.completions.create(..., stream=True)]. *)
Variable complete : Request -> Streaming.

Definition create (req : Request) : M State Stream :=
  fun s =>
    let s' := {| session_messages := session_messages s;
                 requests := requests s ++ [req];
                 page := page s |} in
    match complete req with
    | StreamRaises e => (Abrupt (Exc e), s')
    | StreamReturns st => (Normal st, s')
    end.

Definition chat_request (history : list Turn) : Request :=
  {| model := "gpt-4o-mini";
     messages := history;
     temperature := None;
     max_tokens := None;
     stream := true |}.

(** The body of [if prompt := st.chat_input(...)]. *)
Definition respond (prompt : string) : M State unit :=
  (render (ChatMessage user prompt) ;;
   append (mkTurn user prompt) ;;
   history <- get_messages ;;
   stream <- create (chat_request history) ;;
   full_response <- consume (chunks stream) "" ;;
   match failure stream with
   | Some e => raise e
   | None => ret tt
   end ;;
   render (Placeholder full_response false) ;;
   append (mkTurn assistant full_response))%py.

(** One run of the script: [has_key] says whether OPENAI_API_KEY is in
    the environment, [chat_input] is what [st.chat_input] returns. *)
Definition script (has_key : bool) (chat_input : option string) : M State unit :=
  (render PageConfig ;;
   render Title ;;
   render Caption ;;
   (if negb has_key then (render ErrorBox ;; st_stop) else ret tt) ;;
   s <- get ;;
   match session_messages s with
   | None => set_messages [mkTurn system system_prompt]
   | Some _ => ret tt
   end ;;
   history <- get_messages ;;
   display history ;;
   match chat_input with
   | Some prompt => if PyStr.truthy prompt then respond prompt else ret tt
   | None => ret tt
   end)%py.

End Script.

(** The conversation a state holds: the list under the messages key, or the
    list the next run starts from when the key is absent. *)
Definition messages_of (s : State) : list Turn :=
  match session_messages s with
  | Some m => m
  | None => [mkTurn system system_prompt]
  end.

End WebChat.

(* ===================================================================== *)
(** * 05-Projects/cli_researcher.py *)
(* ===================================================================== *)

Module Researcher.

(** The characters of the class in [re.sub(r'[<>:...|?*]', '', topic)]. *)
Definition unsafe_chars : list ascii :=
  ["<"; ">"; ":"; PyStr.dquote; "/"; PyStr.backslash; "|"; "?"; "*"]%char.

Definition sanitize_filename (topic : string) : string :=
  let safe_name := PyStr.sub_class_empty unsafe_chars topic in
  let safe_name := PyStr.replace_char " " "_" safe_name in
  let safe_name := PyStr.take 50 safe_name in
  PyStr.or_else safe_name "research".

(** The three steps before the fallback. *)
Definition stripped_name (topic : string) : string :=
  PyStr.take 50 (PyStr.replace_char " " "_" (PyStr.sub_class_empty unsafe_chars topic)).

Definition SYSTEM_PROMPT : string :=
"You are an expert researcher with deep knowledge across many fields.

Your task is to provide a clear, accurate, and well-structured summary of the given topic.

Follow this EXACT output format:

# [Topic Name]

## Summary
[A 2-3 sentence overview of the topic]

## Key Points
- [Bullet point 1: A key fact or concept]
- [Bullet point 2: Another important aspect]
- [Bullet point 3: A third significant point]
[Add more bullets if requested]

## Why It Matters
[1-2 sentences on the significance or applications of this topic]

## Learn More
[Suggest 1-2 areas for further exploration]

Guidelines:
- Be concise but informative
- Use simple language accessible to beginners
- Include specific facts, numbers, or examples where relevant
- Avoid jargon unless you explain it
".

(** The parsed command line. *)
Record Args : Type := mkArgs {
  topic : string;
  bullets : Z;
  output : string;
  print_only : bool
}.

(** What the script prints, one constructor per message. *)
Inductive printed : Type :=
| MissingKey
| BulletsError
| Header (topic : string) (bullets : Z)
| ApiError (e : exn)
| UnexpectedError (e : exn)
| Failed
| Results (result : string)
| Saved (filepath : string)
| SaveError (e : exn)
| Complete.

(** The requests sent, the terminal, and what was done to the file system. *)
Record State : Type := mkState {
  requests : list Request;
  stdout : list printed;
  made_dirs : list string;
  written : list (string * string)
}.

Definition initial : State :=
  {| requests := []; stdout := []; made_dirs := []; written := [] |}.

Definition print (o : printed) : M State unit :=
  modify (fun s => {| requests := requests s;
                      stdout := stdout s ++ [o];
                      made_dirs := made_dirs s;
                      written := written s |}).

(** [os.path.join(a, b)] on POSIX paths. *)
Definition path_join (a b : string) : string :=
  match b with
  | String "/" _ => b
  | _ =>
      if negb (PyStr.truthy a) || PyStr.ends_with_char "/" a
      then (a ++ b)%string
      else (a ++ "/" ++ b)%string
  end.

Definition user_prompt (topic : string) (num_bullets : Z) : string :=
  let q := String PyStr.dquote EmptyString in
  ("Research and summarize the following topic: " ++ topic ++ PyStr.newline
   ++ PyStr.newline
   ++ "Please provide exactly " ++ PyStr.of_int num_bullets
   ++ " key bullet points in the " ++ q ++ "Key Points" ++ q ++ " section."
   ++ PyStr.newline
   ++ PyStr.newline
   ++ "Make the summary informative yet accessible to someone new to this topic."
  )%string.

Definition research_request (topic : string) (num_bullets : Z) : Request :=
  {| model := "gpt-4o-mini";
     messages := [mkTurn system SYSTEM_PROMPT;
                  mkTurn user (user_prompt topic num_bullets)];
     temperature := Some (QArith_base.Qmake 7 10);
     max_tokens := Some 1000%Z;
     stream := false |}.

Definition header (topic timestamp : string) : string :=
  ("---" ++ PyStr.newline
   ++ "topic: " ++ topic ++ PyStr.newline
   ++ "generated: " ++ timestamp ++ PyStr.newline
   ++ "model: gpt-4o-mini" ++ PyStr.newline
   ++ "---" ++ PyStr.newline
   ++ PyStr.newline)%string.

Section Script.

(** The collaborators: the client, [os.path.exists], [os.makedirs] and
    [open(path, 'w')] with the write (each of the last two gives the
    exception it raises, if any), and the formatted [datetime.now()]. *)
Variable complete : Request -> Completion.
Variable path_exists : string -> bool.
Variable makedirs_error : string -> option exn.
Variable write_error : string -> option exn.
Variable timestamp : string.

Definition create (req : Request) : M State string :=
  fun s =>
    let s' := {| requests := requests s ++ [req];
                 stdout := stdout s;
                 made_dirs := made_dirs s;
                 written := written s |} in
    match complete req with
    | Raises e => (Abrupt (Exc e), s')
    | Returns text => (Normal text, s')
    end.

Definition makedirs (path : string) : M State unit :=
  match makedirs_error path with
  | Some e => raise e
  | None =>
      modify (fun s => {| requests := requests s;
                          stdout := stdout s;
                          made_dirs := made_dirs s ++ [path];
                          written := written s |})
  end.

Definition write_file (path text : string) : M State unit :=
  match write_error path with
  | Some e => raise e
  | None =>
      modify (fun s => {| requests := requests s;
                          stdout := stdout s;
                          made_dirs := made_dirs s;
                          written := written s ++ [(path, text)] |})
  end.

Definition research_topic (topic : string) (num_bullets : Z)
    : M State (option string) :=
  try_except
    (content <- create (research_request topic num_bullets) ;;
     ret (Some content))%py
    any_Exception
    (fun e =>
       if is_OpenAIError e
       then (print (ApiError e) ;; ret None)%py
       else (print (UnexpectedError e) ;; ret None)%py).

Definition save_to_markdown (content topic output_dir : string)
    : M State string :=
  let filename := (sanitize_filename topic ++ ".md")%string in
  let filepath := path_join output_dir filename in
  (write_file filepath (header topic timestamp ++ content)%string ;;
   ret filepath)%py.

Definition main (args : Args) : M State unit :=
  ((if (bullets args <? 1)%Z || (bullets args >? 10)%Z
    then (print BulletsError ;; sys_exit 1)
    else ret tt) ;;
   (if negb (print_only args) && negb (path_exists (output args))
    then makedirs (output args)
    else ret tt) ;;
   print (Header (topic args) (bullets args)) ;;
   result <- research_topic (topic args) (bullets args) ;;
   match result with
   | None => (print Failed ;; sys_exit 1)
   | Some result =>
       (print (Results result) ;;
        (if negb (print_only args)
         then try_except
                (filepath <- save_to_markdown result (topic args) (output args) ;;
                 print (Saved filepath))
                is_IOError
                (fun e => print (SaveError e) ;; sys_exit 1)
         else ret tt) ;;
        print Complete)
   end)%py.

(** The whole script: the check of the API key at import time ([getenv]
    gives [None] or the value), then [main] on the parsed arguments. *)
Definition script (api_key : option string) (args : Args) : M State unit :=
  ((match api_key with
    | Some key => if PyStr.truthy key then ret tt
                  else (print MissingKey ;; sys_exit 1)
    | None => (print MissingKey ;; sys_exit 1)
    end) ;;
   main args)%py.

End Script.

End Researcher.

(* ===================================================================== *)
(** * 03-API-Interactions/start.py *)
(* ===================================================================== *)

Module Start.

(** What the script prints, one constructor per message. *)
Inductive printed : Type :=
| MissingKey
| Response (text : string)
| CallError (e : exn).

Record State : Type := mkState {
  requests : list Request;
  stdout : list printed
}.

Definition initial : State := {| requests := []; stdout := [] |}.

Definition print (o : printed) : M State unit :=
  modify (fun s => {| requests := requests s; stdout := stdout s ++ [o] |}).

(** The one request of the script. *)
Definition start_request : Request :=
  {| model := "gpt-3.5-turbo";
     messages := [mkTurn system "You are a helpful assistant.";
                  mkTurn user "Hello! What is Generative AI in one sentence?"];
     temperature := None;
     max_tokens := Some 100%Z;
     stream := false |}.

Section Script.

Variable complete : Request -> Completion.

Definition create (req : Request) : M State string :=
  fun s =>
    let s' := {| requests := requests s ++ [req]; stdout := stdout s |} in
    match complete req with
    | Raises e => (Abrupt (Exc e), s')
    | Returns text => (Normal text, s')
    end.

(** The script, given what [os.getenv] returns for the key. *)
Definition script (api_key : option string) : M State unit :=
  ((match api_key with
    | Some key => if PyStr.truthy key then ret tt
                  else (print MissingKey ;; sys_exit 1)
    | None => (print MissingKey ;; sys_exit 1)
    end) ;;
   try_except
     (text <- create start_request ;;
      print (Response text))
     any_Exception
     (fun e => print (CallError e)))%py.

End Script.

End Start.

(* ===================================================================== *)
(** * The vocabulary of the properties *)
(* ===================================================================== *)

Module Store.

(** [h[-1]], when there is one. *)
Definition final_turn (h : list Turn) : option Turn := hd_error (rev h).

(** The roles of [n] exchanges: user, assistant, user, assistant, ... *)
Fixpoint alternating (n : nat) : list Role :=
  match n with
  | O => []
  | S n' => user :: assistant :: alternating n'
  end.

(** The turns that exchanges with the user texts [xs] and the replies [rs]
    add. *)
Fixpoint exchanged (xs rs : list string) : list Turn :=
  match xs, rs with
  | x :: xs', r :: rs' => mkTurn user x :: mkTurn assistant r :: exchanged xs' rs'
  | _, _ => []
  end.

Definition is_system (t : Turn) : bool := Role_eqb (role t) system.

Definition system_count (h : list Turn) : nat := length (filter is_system h).

(** The invariant of the conversation store: the first element is a system
    turn, there is at most one system turn, and a system turn is at index 0. *)
Definition system_first (h : list Turn) : Prop :=
  (exists t, hd_error h = Some t /\ role t = system)
  /\ system_count h <= 1
  /\ (forall i t, nth_error h i = Some t -> role t = system -> i = 0).

(** The same, as the shape of the list. *)
Definition seeded (h : list Turn) : Prop :=
  exists p rest, h = mkTurn system p :: rest
                 /\ Forall (fun t => role t <> system) rest.

(** The text of the last user turn of a conversation (empty if none). *)
Definition last_user_content (h : list Turn) : string :=
  fold_left (fun acc t => if Role_eqb (role t) user then content t else acc) h "".

(** The stub client of the echo test: it answers a request with Echo: and
    the text of the last user turn it was sent. *)
Definition echo_stub (req : Request) : Completion :=
  Returns ("Echo: " ++ last_user_content (messages req))%string.

(** The text that a stream's fragments add up to. *)
Definition accumulate (deltas : list (option string)) (acc : string) : string :=
  fold_left (fun a d => match d with Some f => (a ++ f)%string | None => a end)
            deltas acc.

(** Calls of [chat] in a row, one per user text, up to the first that
    fails: the result is normal when every exchange succeeded, and is then
    the list of the replies. *)
Fixpoint chats (complete : Request -> Completion) (user_messages : list string)
    : M Chat.State (list string) :=
  match user_messages with
  | [] => ret []
  | x :: xs =>
      (r <- Chat.chat complete x ;;
       rs <- chats complete xs ;;
       ret (r :: rs))%py
  end.

(** Runs of the web script in one session with the key set, one per prompt
    entered, up to the first run that does not end normally. *)
Fixpoint session (complete : Request -> Streaming) (prompts : list string)
    : M WebChat.State unit :=
  match prompts with
  | [] => ret tt
  | p :: ps => (WebChat.script complete true (Some p) ;; session complete ps)%py
  end.

(** The states of simple_chatbot.py: the initial one, and those that a call
    of [chat] or a turn of the loop of [main] leaves, whatever the client
    answers and however the call ends. *)
Inductive chat_reachable : Chat.State -> Prop :=
| reach_initial : chat_reachable Chat.initial
| reach_chat complete x s :
    chat_reachable s -> chat_reachable (exec (Chat.chat complete x) s)
| reach_loop complete ev s :
    chat_reachable s -> chat_reachable (exec (Chat.loop_body complete ev) s).

(** The states of a session of web_chatbot.py: the fresh one, and those
    that a run of the script leaves. *)
Inductive web_reachable : WebChat.State -> Prop :=
| reach_fresh : web_reachable WebChat.fresh
| reach_run complete has_key chat_input s :
    web_reachable s ->
    web_reachable (exec (WebChat.script complete has_key chat_input) s).

End Store.
Import Store.

(* ===================================================================== *)
(** * Measures of a conversation and of a stream *)
(* ===================================================================== *)

Module Measures.

Definition is_user (t : Turn) : bool := Role_eqb (role t) user.

(** The number of user turns of a conversation. *)
Definition user_count (h : list Turn) : nat := length (filter is_user h).

(** No user turn of the conversation is empty. *)
Definition user_turns_nonempty (h : list Turn) : Prop :=
  Forall (fun t => role t = user -> content t <> "") h.

(** The fragments of a stream joined in order, the chunks without content
    left out. *)
Fixpoint joined (deltas : list (option string)) : string :=
  match deltas with
  | [] => ""
  | Some fragment :: rest => (fragment ++ joined rest)%string
  | None :: rest => joined rest
  end.

(** The messages that [display] shows: all but the system messages. *)
Definition shown (msgs : list Turn) : list WebChat.element :=
  map (fun m => WebChat.ChatMessage (role m) (content m))
      (filter (fun m => negb (Role_eqb (role m) system)) msgs).

(** A request was sent when the conversation was [messages req]: that list
    ends with a user turn and the history [h] extends it. *)
Definition sent_from (h : list Turn) (req : Request) : Prop :=
  (exists later, h = messages req ++ later)
  /\ (exists x, final_turn (messages req) = Some (mkTurn user x)).

(** The history and the requests of [s'] extend those of [s], with one
    request for each user turn added and no system turn added. *)
Definition extends (s s' : Chat.State) : Prop :=
  exists added sent,
    Chat.conversation_history s' = Chat.conversation_history s ++ added
    /\ Chat.requests s' = Chat.requests s ++ sent
    /\ length sent = user_count added
    /\ Forall (fun t => role t <> system) added.

(** The log of requests agrees with the history: one request for each user
    turn, each sent from a beginning of the history that ends with a user
    turn. *)
Definition log_agrees (s : Chat.State) : Prop :=
  length (Chat.requests s) = user_count (Chat.conversation_history s)
  /\ Forall (sent_from (Chat.conversation_history s)) (Chat.requests s).

Definition web_log_agrees (s : WebChat.State) : Prop :=
  length (WebChat.requests s) = user_count (WebChat.messages_of s)
  /\ Forall (sent_from (WebChat.messages_of s)) (WebChat.requests s).

End Measures.
Import Measures.

(* ===================================================================== *)
(** * Facts about the string operations *)
(* ===================================================================== *)

Example of_int_neg : PyStr.of_int (-3) = "-3". Proof. reflexivity. Qed.
Example of_int_zero : PyStr.of_int 0 = "0". Proof. reflexivity. Qed.
Example of_int_12 : PyStr.of_int 12 = "12". Proof. reflexivity. Qed.
Example strip_ex : PyStr.strip "  hi there  " = "hi there". Proof. reflexivity. Qed.
Example strip_blank : PyStr.strip "   " = "". Proof. reflexivity. Qed.
Example lower_ex : PyStr.lower "QuIt" = "quit". Proof. reflexivity. Qed.


Section StringFacts.

Import PyStr.

Lemma contains_sub_class_empty c class s :
  mem c class = true -> contains c (sub_class_empty class s) = false.
Proof.
  intros Hc. induction s as [|d s IH]; simpl; [reflexivity|].
  destruct (mem d class) eqn:Hd; [exact IH|].
  simpl. rewrite IH, orb_false_r.
  destruct (Ascii.eqb c d) eqn:E; [|reflexivity].
  apply Ascii.eqb_eq in E. subst d. congruence.
Qed.

Lemma contains_replace_char_other c a b s :
  c <> b -> contains c s = false -> contains c (replace_char a b s) = false.
Proof.
  intros Hcb. induction s as [|d s IH]; simpl; [reflexivity|].
  intros H. apply orb_false_iff in H. destruct H as [H1 H2].
  rewrite (IH H2), orb_false_r.
  destruct (Ascii.eqb d a); [|exact H1].
  apply Ascii.eqb_neq. exact Hcb.
Qed.

Lemma contains_replace_char_same a b s :
  a <> b -> contains a (replace_char a b s) = false.
Proof.
  intros Hab. induction s as [|d s IH]; simpl; [reflexivity|].
  rewrite IH, orb_false_r.
  destruct (Ascii.eqb d a) eqn:E.
  - apply Ascii.eqb_neq. exact Hab.
  - rewrite Ascii.eqb_sym. exact E.
Qed.

Lemma contains_take c n s :
  contains c s = false -> contains c (take n s) = false.
Proof.
  revert s. induction n as [|n IH]; intros [|d s]; simpl; try reflexivity.
  intros H. apply orb_false_iff in H. destruct H as [H1 H2].
  rewrite H1, (IH _ H2). reflexivity.
Qed.

Lemma len_take n s : len (take n s) <= n.
Proof.
  unfold len. revert s.
  induction n as [|n IH]; intros [|d s]; simpl; try lia.
  specialize (IH s). lia.
Qed.

Lemma truthy_false s : truthy s = false <-> s = "".
Proof. destruct s; simpl; split; congruence. Qed.

Lemma or_else_nonempty a b : b <> "" -> or_else a b <> "".
Proof.
  intros Hb. unfold or_else. destruct a; simpl; [exact Hb | discriminate].
Qed.

End StringFacts.

(* ===================================================================== *)
(** * cli_researcher.py: the file name of a topic *)
(* ===================================================================== *)

Section SanitizeFacts.

Import PyStr Researcher.

Lemma sanitize_filename_eq topic :
  sanitize_filename topic = or_else (stripped_name topic) "research".
Proof. reflexivity. Qed.

Lemma stripped_name_no_unsafe topic c :
  mem c unsafe_chars = true -> contains c (stripped_name topic) = false.
Proof.
  intros Hc. unfold stripped_name.
  apply contains_take, contains_replace_char_other.
  - intros ->. vm_compute in Hc. discriminate.
  - apply contains_sub_class_empty, Hc.
Qed.

Lemma stripped_name_no_space topic : contains " " (stripped_name topic) = false.
Proof.
  unfold stripped_name. apply contains_take, contains_replace_char_same.
  discriminate.
Qed.

(** Whatever the topic, the name has no unsafe character and no space, and
    is at most 50 characters long. *)
Lemma sanitize_filename_safe topic :
  (forall c, mem c unsafe_chars = true -> contains c (sanitize_filename topic) = false)
  /\ contains " " (sanitize_filename topic) = false
  /\ len (sanitize_filename topic) <= 50.
Proof.
  rewrite sanitize_filename_eq. unfold or_else.
  destruct (truthy (stripped_name topic)) eqn:E.
  - split; [|split].
    + intros c Hc. apply stripped_name_no_unsafe, Hc.
    + apply stripped_name_no_space.
    + apply len_take.
  - split; [|split].
    + intros c Hc.
      destruct (contains c "research") eqn:Hr; [|reflexivity].
      exfalso. revert Hc Hr. unfold unsafe_chars, dquote, backslash. simpl.
      repeat match goal with
             | |- context [Ascii.eqb c ?d] =>
                 destruct (Ascii.eqb_spec c d); [subst c; simpl; discriminate|]
             end.
      simpl. discriminate.
    + reflexivity.
    + unfold len. simpl. lia.
Qed.

(** C8.  The topic [C++ vs C#: A/B?] gets the name [C++_vs_C#_AB]: none of
    the nine characters of the class (less-than, greater-than, colon,
    double quote, slash, backslash, bar, question mark, star) is in it,
    every space of the topic has become an underscore (the name is the
    topic without the unsafe characters and with underscores for spaces,
    and no space is left in it), and it is at most 50 characters long; the
    extension [.md] is appended to that name afterwards, by
    [save_to_markdown]. *)
Theorem sanitize_filename_topic_example :
  let topic := "C++ vs C#: A/B?" in
  let name := sanitize_filename topic in
  name = "C++_vs_C#_AB"
  /\ forallb (fun c => negb (contains c name)) unsafe_chars = true
  /\ name = replace_char " " "_" (sub_class_empty unsafe_chars topic)
  /\ contains " " name = false
  /\ len name <= 50
  /\ (forall timestamp content dir s,
        result (save_to_markdown (fun _ => None) timestamp content topic dir) s
        = Normal (path_join dir "C++_vs_C#_AB.md")).
Proof.
  cbv zeta. split; [reflexivity|].
  split; [reflexivity|]. split; [reflexivity|]. split; [reflexivity|].
  split; [vm_compute; lia|].
  intros timestamp content dir s. reflexivity.
Qed.

(** C10.  For every topic the name is not empty: when removing the unsafe
    characters, replacing the spaces and cutting at 50 characters leaves
    nothing, the name is [research]; otherwise it is what these steps
    leave.  A topic made of unsafe characters only is an instance. *)
Theorem sanitize_filename_nonempty topic :
  sanitize_filename topic <> ""
  /\ (stripped_name topic = "" -> sanitize_filename topic = "research")
  /\ (stripped_name topic <> "" -> sanitize_filename topic = stripped_name topic)
  /\ sanitize_filename "<?>*|:/" = "research"
  /\ sanitize_filename "" = "research".
Proof.
  rewrite sanitize_filename_eq. split; [|split; [|split]].
  - apply or_else_nonempty. discriminate.
  - intros ->. reflexivity.
  - unfold or_else. destruct (stripped_name topic); [congruence | reflexivity].
  - split; reflexivity.
Qed.

End SanitizeFacts.

(* ===================================================================== *)
(** * Sequencing *)
(* ===================================================================== *)

Section MonadFacts.

Context {W A B : Type}.

Lemma bind_normal (m : M W A) (k : A -> M W B) w a w' :
  m w = (Normal a, w') -> bind m k w = k a w'.
Proof. intros E. unfold bind. rewrite E. reflexivity. Qed.

Lemma bind_abrupt (m : M W A) (k : A -> M W B) w sig w' :
  m w = (Abrupt sig, w') -> bind m k w = (Abrupt sig, w').
Proof. intros E. unfold bind. rewrite E. reflexivity. Qed.

Lemma bind_normal_inv (m : M W A) (k : A -> M W B) w b w'' :
  bind m k w = (Normal b, w'') ->
  exists a w', m w = (Normal a, w') /\ k a w' = (Normal b, w'').
Proof.
  unfold bind. destruct (m w) as [[a|sig] w']; intros E.
  - exists a, w'. split; [reflexivity | exact E].
  - discriminate.
Qed.

End MonadFacts.

(* ===================================================================== *)
(** * simple_chatbot.py: one exchange *)
(* ===================================================================== *)

Section ChatFacts.

Import Chat.

Variable complete : Request -> Completion.

(** [chat] in one equation: the user turn is appended, the request carries
    the list as it then is, and the reply, if there is one, is appended. *)
Lemma chat_eq x s :
  chat complete x s =
    let h := conversation_history s ++ [mkTurn user x] in
    let req := chat_request h in
    match complete req with
    | Raises e =>
        (Abrupt (Exc e), mkState h (requests s ++ [req]) (stdout s))
    | Returns text =>
        (Normal text,
         mkState (h ++ [mkTurn assistant text]) (requests s ++ [req]) (stdout s))
    end.
Proof.
  unfold chat, bind, append, modify, get, create, ret. simpl.
  destruct (complete _); reflexivity.
Qed.

Lemma chat_requests x s :
  requests (exec (chat complete x) s)
  = requests s ++ [chat_request (conversation_history s ++ [mkTurn user x])].
Proof.
  unfold exec. rewrite chat_eq. cbv zeta.
  destruct (complete _); reflexivity.
Qed.

Lemma chat_normal x s r s' :
  chat complete x s = (Normal r, s') ->
  complete (chat_request (conversation_history s ++ [mkTurn user x])) = Returns r
  /\ conversation_history s'
     = conversation_history s ++ [mkTurn user x; mkTurn assistant r].
Proof.
  rewrite chat_eq. cbv zeta. destruct (complete _) as [e|text]; intros E.
  - discriminate.
  - injection E as <- <-. simpl. rewrite <- app_assoc. split; reflexivity.
Qed.

Lemma chat_history x s :
  exists added,
    conversation_history (exec (chat complete x) s)
    = conversation_history s ++ mkTurn user x :: added
    /\ Forall (fun t => role t <> system) added.
Proof.
  unfold exec. rewrite chat_eq. cbv zeta.
  destruct (complete _) as [e|text]; simpl.
  - exists []. split; [reflexivity | constructor].
  - exists [mkTurn assistant text]. rewrite <- app_assoc. split; [reflexivity|].
    repeat constructor. discriminate.
Qed.

Lemma chats_history xs : forall s rs s',
  chats complete xs s = (Normal rs, s') ->
  length rs = length xs
  /\ conversation_history s' = conversation_history s ++ exchanged xs rs.
Proof.
  induction xs as [|x xs IH]; intros s rs s' E.
  - injection E as <- <-. rewrite app_nil_r. split; reflexivity.
  - simpl in E.
    apply bind_normal_inv in E. destruct E as (r & s1 & E1 & E).
    apply bind_normal_inv in E. destruct E as (rs' & s2 & E2 & E).
    injection E as <- <-.
    apply chat_normal in E1. destruct E1 as [_ H1].
    apply IH in E2. destruct E2 as [L2 H2].
    split; [simpl; congruence|].
    rewrite H2, H1, <- app_assoc. reflexivity.
Qed.

End ChatFacts.

Section StoreFacts.

Lemma exchanged_length xs : forall rs,
  length rs = length xs -> length (exchanged xs rs) = 2 * length xs.
Proof.
  induction xs as [|x xs IH]; intros [|r rs] L; simpl in *; try lia.
  rewrite IH; lia.
Qed.

Lemma exchanged_roles xs : forall rs,
  length rs = length xs -> map role (exchanged xs rs) = alternating (length xs).
Proof.
  induction xs as [|x xs IH]; intros [|r rs] L; simpl in *; try lia.
  - reflexivity.
  - rewrite IH; [reflexivity | lia].
Qed.

Lemma final_turn_app h t : final_turn (h ++ [t]) = Some t.
Proof. unfold final_turn. rewrite rev_app_distr. reflexivity. Qed.

End StoreFacts.

(* ===================================================================== *)
(** * web_chatbot.py: one run of the script *)
(* ===================================================================== *)

Section WebFacts.

Import WebChat.

Variable complete : Request -> Streaming.

Lemma render_eq e s :
  render e s = (Normal tt, mkState (session_messages s) (requests s) (page s ++ [e])).
Proof. reflexivity. Qed.

(** Displaying the history and consuming a stream touch the page only. *)
Lemma display_frame msgs : forall s,
  exists pg,
    display msgs s = (Normal tt, mkState (session_messages s) (requests s) pg).
Proof.
  induction msgs as [|m msgs IH]; intros s; simpl.
  - exists (page s). destruct s; reflexivity.
  - destruct (negb (Role_eqb (role m) system)).
    + destruct (IH (mkState (session_messages s) (requests s)
                            (page s ++ [ChatMessage (role m) (content m)])))
        as [pg E].
      exists pg. erewrite bind_normal by apply render_eq. exact E.
    + destruct (IH s) as [pg E]. exists pg. exact E.
Qed.

Lemma consume_frame deltas : forall acc s,
  exists pg,
    consume deltas acc s
    = (Normal (accumulate deltas acc),
       mkState (session_messages s) (requests s) pg).
Proof.
  induction deltas as [|[f|] deltas IH]; intros acc s; simpl.
  - exists (page s). destruct s; reflexivity.
  - destruct (IH (acc ++ f)%string
                 (mkState (session_messages s) (requests s)
                          (page s ++ [Placeholder (acc ++ f)%string true])))
      as [pg E].
    exists pg. erewrite bind_normal by apply render_eq. exact E.
  - apply IH.
Qed.

(** The body of the [if prompt] block, from a state that has the messages
    key. *)
Lemma respond_eq prompt h rq pg0 :
  let h' := h ++ [mkTurn user prompt] in
  let req := chat_request h' in
  exists pg,
    respond complete prompt (mkState (Some h) rq pg0) =
    match complete req with
    | StreamRaises e => (Abrupt (Exc e), mkState (Some h') (rq ++ [req]) pg)
    | StreamReturns st =>
        match failure st with
        | Some e => (Abrupt (Exc e), mkState (Some h') (rq ++ [req]) pg)
        | None =>
            (Normal tt,
             mkState (Some (h' ++ [mkTurn assistant (accumulate (chunks st) "")]))
                     (rq ++ [req]) pg)
        end
    end.
Proof.
  intros h' req. unfold respond.
  erewrite bind_normal by apply render_eq.
  erewrite bind_normal by reflexivity.
  erewrite bind_normal by reflexivity.
  cbn [session_messages requests page].
  unfold bind at 1, create. cbn [session_messages requests page].
  fold h'. fold req.
  destruct (complete req) as [e|st].
  - eexists. reflexivity.
  - destruct (consume_frame (chunks st) ""
                (mkState (Some h') (rq ++ [req])
                         (pg0 ++ [ChatMessage user prompt]))) as [pg E].
    cbn [session_messages requests page] in E.
    erewrite bind_normal by exact E.
    destruct (failure st) as [e|].
    + exists pg. reflexivity.
    + eexists. reflexivity.
Qed.

(** A run with the key set and a prompt that is not empty. *)
Lemma script_exchange c p s :
  let prompt := String c p in
  let h := messages_of s ++ [mkTurn user prompt] in
  let req := chat_request h in
  exists pg,
    script complete true (Some prompt) s =
    match complete req with
    | StreamRaises e => (Abrupt (Exc e), mkState (Some h) (requests s ++ [req]) pg)
    | StreamReturns st =>
        match failure st with
        | Some e => (Abrupt (Exc e), mkState (Some h) (requests s ++ [req]) pg)
        | None =>
            (Normal tt,
             mkState (Some (h ++ [mkTurn assistant (accumulate (chunks st) "")]))
                     (requests s ++ [req]) pg)
        end
    end.
Proof.
  intros prompt h req. unfold script.
  do 3 (erewrite bind_normal by apply render_eq).
  erewrite bind_normal by reflexivity.
  erewrite bind_normal by reflexivity.
  cbn [session_messages requests page].
  set (pg0 := ((page s ++ [PageConfig]) ++ [Title]) ++ [Caption]).
  assert (Hinit : exists s1,
    (match session_messages s with
     | None => set_messages [mkTurn system system_prompt]
     | Some _ => ret tt
     end) (mkState (session_messages s) (requests s) pg0)
    = (Normal tt, s1)
    /\ s1 = mkState (Some (messages_of s)) (requests s) pg0).
  { unfold messages_of. destruct (session_messages s); eexists; split; reflexivity. }
  destruct Hinit as (s1 & E1 & ->).
  erewrite bind_normal by exact E1.
  erewrite bind_normal by reflexivity.
  destruct (display_frame (messages_of s)
              (mkState (Some (messages_of s)) (requests s) pg0)) as [pg1 E2].
  cbn [session_messages requests page] in E2.
  erewrite bind_normal by exact E2.
  cbn [PyStr.truthy prompt].
  apply respond_eq.
Qed.

(** A run without the key stops before the session is touched. *)
Lemma script_no_key chat_input s :
  script complete false chat_input s
  = (Abrupt StopException,
     mkState (session_messages s) (requests s)
             (page s ++ [PageConfig; Title; Caption; ErrorBox])).
Proof.
  unfold script, bind, render, modify, st_stop. simpl.
  repeat rewrite <- app_assoc. reflexivity.
Qed.

(** A run with no prompt, or an empty one, sends nothing and leaves the
    conversation as it is. *)
Lemma script_idle chat_input s :
  chat_input = None \/ chat_input = Some "" ->
  exists pg,
    script complete true chat_input s
    = (Normal tt, mkState (Some (messages_of s)) (requests s) pg).
Proof.
  intros Hin. unfold script.
  do 3 (erewrite bind_normal by apply render_eq).
  erewrite bind_normal by reflexivity.
  erewrite bind_normal by reflexivity.
  cbn [session_messages requests page].
  set (pg0 := ((page s ++ [PageConfig]) ++ [Title]) ++ [Caption]).
  assert (Hinit :
    (match session_messages s with
     | None => set_messages [mkTurn system system_prompt]
     | Some _ => ret tt
     end) (mkState (session_messages s) (requests s) pg0)
    = (Normal tt, mkState (Some (messages_of s)) (requests s) pg0)).
  { unfold messages_of. destruct (session_messages s); reflexivity. }
  erewrite bind_normal by exact Hinit.
  erewrite bind_normal by reflexivity.
  destruct (display_frame (messages_of s)
              (mkState (Some (messages_of s)) (requests s) pg0)) as [pg1 E2].
  cbn [session_messages requests page] in E2.
  erewrite bind_normal by exact E2.
  exists pg1. destruct Hin as [-> | ->]; reflexivity.
Qed.

End WebFacts.

(* ===================================================================== *)
(** * The conversation store: what is sent, and how the history grows *)
(* ===================================================================== *)

Section SessionFacts.

Import WebChat.

Variable complete : Request -> Streaming.

(** A run that ends normally on a prompt has appended the prompt and the
    text of the stream. *)
Lemma script_exchange_normal c p s s' :
  script complete true (Some (String c p)) s = (Normal tt, s') ->
  exists st,
    complete (chat_request (messages_of s ++ [mkTurn user (String c p)]))
    = StreamReturns st
    /\ failure st = None
    /\ session_messages s'
       = Some (messages_of s ++ [mkTurn user (String c p);
                                 mkTurn assistant (accumulate (chunks st) "")]).
Proof.
  destruct (script_exchange complete c p s) as [pg E]. cbv zeta in E.
  rewrite E. clear E.
  destruct (complete _) as [e|st]; [discriminate|].
  destruct (failure st) as [e|] eqn:F; [discriminate|].
  intros H. injection H as <-. exists st.
  simpl. rewrite <- app_assoc. repeat split; assumption || reflexivity.
Qed.

Lemma session_history prompts : forall s s',
  Forall (fun p => p <> "") prompts ->
  session complete prompts s = (Normal tt, s') ->
  exists rs,
    length rs = length prompts
    /\ messages_of s' = messages_of s ++ exchanged prompts rs.
Proof.
  induction prompts as [|p ps IH]; intros s s' Hne E.
  - injection E as <-. exists []. rewrite app_nil_r. split; reflexivity.
  - inversion Hne as [|? ? Hp Hps]; subst.
    destruct p as [|c p]; [congruence|].
    simpl in E. apply bind_normal_inv in E.
    destruct E as ([] & s1 & E1 & E2).
    apply script_exchange_normal in E1. destruct E1 as (st & _ & _ & H1).
    apply (IH _ _ Hps) in E2. destruct E2 as (rs & L & H2).
    exists (accumulate (chunks st) "" :: rs). split; [simpl; congruence|].
    rewrite H2. unfold messages_of at 1. rewrite H1.
    rewrite <- app_assoc. reflexivity.
Qed.

End SessionFacts.

(** C1.  Every call of [chat] sends exactly one request, and its messages are
    the whole conversation so far (the system turn and every earlier user and
    assistant turn, in order) with the new user turn appended at the end; the
    same holds for a run of the web script on a prompt. *)
Theorem exchange_sends_entire_history :
  (forall complete x s,
     let sent := Chat.conversation_history s ++ [mkTurn user x] in
     Chat.requests (exec (Chat.chat complete x) s)
     = Chat.requests s ++ [Chat.chat_request sent]
     /\ messages (Chat.chat_request sent) = sent)
  /\ (forall complete c p s,
        let prompt := String c p in
        let sent := WebChat.messages_of s ++ [mkTurn user prompt] in
        WebChat.requests (exec (WebChat.script complete true (Some prompt)) s)
        = WebChat.requests s ++ [WebChat.chat_request sent]
        /\ messages (WebChat.chat_request sent) = sent).
Proof.
  split.
  - intros complete x s sent. split; [apply chat_requests | reflexivity].
  - intros complete c p s prompt sent. split; [|reflexivity].
    destruct (script_exchange complete c p s) as [pg E]. cbv zeta in E.
    unfold exec. fold prompt in E. fold sent in E. rewrite E.
    destruct (complete _) as [e|st]; [reflexivity|].
    destruct (failure st); reflexivity.
Qed.

(** C2.  From a store that holds one system turn, or nothing, [N] exchanges
    that all succeed leave 1 + 2N turns, or 2N, and after the system turn, if
    any, the roles are user, assistant, user, assistant, ...; in a web session
    the store starts with its system turn and the same holds. *)
Theorem turn_count_and_alternation :
  (forall complete (seed : option string) s xs rs s',
     Chat.conversation_history s
     = match seed with Some p => [mkTurn system p] | None => [] end ->
     chats complete xs s = (Normal rs, s') ->
     length (Chat.conversation_history s')
     = match seed with Some _ => 1 | None => 0 end + 2 * length xs
     /\ map role (Chat.conversation_history s')
        = match seed with Some _ => [system] | None => [] end
          ++ alternating (length xs))
  /\ (forall complete prompts s s',
        (WebChat.session_messages s = None
         \/ exists p, WebChat.session_messages s = Some [mkTurn system p]) ->
        Forall (fun p => p <> "") prompts ->
        session complete prompts s = (Normal tt, s') ->
        length (WebChat.messages_of s') = 1 + 2 * length prompts
        /\ map role (WebChat.messages_of s')
           = system :: alternating (length prompts)).
Proof.
  split.
  - intros complete seed s xs rs s' Hseed E.
    apply chats_history in E. destruct E as [L ->].
    rewrite length_app, map_app, (exchanged_length _ _ L), (exchanged_roles _ _ L), Hseed.
    destruct seed; split; reflexivity.
  - intros complete prompts s s' Hseed Hne E.
    apply (session_history _ _ _ _ Hne) in E. destruct E as (rs & L & ->).
    rewrite length_app, map_app, (exchanged_length _ _ L), (exchanged_roles _ _ L).
    unfold WebChat.messages_of.
    destruct Hseed as [-> | [p ->]]; split; reflexivity.
Qed.

Lemma turn_count_and_alternation_witness :
  length (Chat.conversation_history (exec (chats echo_stub ["hello"; "world"]) Chat.initial))
  = 1 + 2 * 2
  /\ map role (Chat.conversation_history (exec (chats echo_stub ["hello"; "world"]) Chat.initial))
     = [system] ++ alternating 2.
Proof.
  exact (proj1 turn_count_and_alternation echo_stub (Some Chat.system_prompt)
           Chat.initial ["hello"; "world"] _ _ eq_refl eq_refl).
Defined.

Section FailedExchange.

Import Chat.

(** C3.  When the request of [chat x] fails with [e], the call ends with the
    exception [e] (which no normal result equals), the history is the old
    one with the user turn for [x] appended (it is kept, and no assistant
    turn follows it), and one request was sent.  In [main] the exception is
    caught and printed, and the loop goes on with that history. *)
Theorem failed_exchange_keeps_user_turn complete x s e :
  complete (chat_request (conversation_history s ++ [mkTurn user x])) = Raises e ->
  result (chat complete x) s = Abrupt (Exc e)
  /\ (forall r, result (chat complete x) s <> Normal r)
  /\ conversation_history (exec (chat complete x) s)
     = conversation_history s ++ [mkTurn user x]
  /\ final_turn (conversation_history (exec (chat complete x) s))
     = Some (mkTurn user x)
  /\ (forall raw,
        PyStr.strip raw = x ->
        PyStr.in_list (PyStr.lower x) ["quit"; "exit"; "q"] = false ->
        x <> "" ->
        PyStr.lower x <> "history" ->
        loop_body complete (Line raw) s
        = (Normal Continue,
           mkState (conversation_history s ++ [mkTurn user x])
                   (requests s
                    ++ [chat_request (conversation_history s ++ [mkTurn user x])])
                   (stdout s ++ [Error e]))).
Proof.
  intros Hfail.
  assert (E : chat complete x s
              = (Abrupt (Exc e),
                 mkState (conversation_history s ++ [mkTurn user x])
                         (requests s
                          ++ [chat_request (conversation_history s ++ [mkTurn user x])])
                         (stdout s))).
  { rewrite chat_eq. cbv zeta. rewrite Hfail. reflexivity. }
  unfold result, exec. rewrite E. simpl.
  split; [reflexivity|]. split; [discriminate|]. split; [reflexivity|].
  split; [apply final_turn_app|].
  intros raw Hraw Hquit Hne Hhist. unfold loop_body.
  rewrite Hraw, Hquit.
  destruct x as [|c x']; [congruence|]. cbn [PyStr.truthy negb].
  destruct (String.eqb_spec (PyStr.lower (String c x')) "history") as [Heq|_];
    [contradiction|].
  unfold try_except. erewrite bind_abrupt by exact E. reflexivity.
Qed.

Lemma failed_exchange_keeps_user_turn_witness :
  let complete := fun _ : Request => Raises (OpenAIError "quota") in
  result (chat complete "x") initial = Abrupt (Exc (OpenAIError "quota"))
  /\ final_turn (conversation_history (exec (chat complete "x") initial))
     = Some (mkTurn user "x").
Proof.
  intros complete.
  pose proof (failed_exchange_keeps_user_turn complete "x" initial
                (OpenAIError "quota") eq_refl) as H.
  split; [apply H | apply H].
Defined.

End FailedExchange.

(* ===================================================================== *)
(** * The system turn stays first and alone *)
(* ===================================================================== *)

Section SystemTurn.

Lemma filter_not_system rest :
  Forall (fun t => role t <> system) rest -> filter is_system rest = [].
Proof.
  induction 1 as [|t rest Ht _ IH]; simpl; [reflexivity|].
  unfold is_system at 1. destruct (role t); simpl; congruence.
Qed.

Lemma seeded_system_first h : seeded h -> system_first h.
Proof.
  intros (p & rest & -> & Hrest). split; [|split].
  - exists (mkTurn system p). split; reflexivity.
  - unfold system_count. simpl. rewrite (filter_not_system _ Hrest). simpl. lia.
  - intros [|i] t Hi Hr; [reflexivity|]. exfalso.
    simpl in Hi. apply nth_error_In in Hi.
    rewrite Forall_forall in Hrest. exact (Hrest _ Hi Hr).
Qed.

Lemma system_first_seeded h : system_first h -> seeded h.
Proof.
  intros ((t & Hhd & Hr) & _ & Hidx).
  destruct h as [|t0 rest]; [discriminate|].
  injection Hhd as ->. destruct t as [r p]. simpl in Hr. subst r.
  exists p, rest. split; [reflexivity|].
  apply Forall_forall. intros t Hin Hr.
  apply In_nth_error in Hin. destruct Hin as [i Hi].
  specialize (Hidx (S i) t Hi Hr). discriminate.
Qed.

Lemma seeded_app h added :
  seeded h -> Forall (fun t => role t <> system) added -> seeded (h ++ added).
Proof.
  intros (p & rest & -> & Hrest) Hadded.
  exists p, (rest ++ added). split; [reflexivity|].
  apply Forall_app. split; assumption.
Qed.

Lemma chat_seeded complete x s :
  seeded (Chat.conversation_history s) ->
  seeded (Chat.conversation_history (exec (Chat.chat complete x) s)).
Proof.
  intros H. destruct (chat_history complete x s) as (added & -> & Hadded).
  apply seeded_app; [exact H|].
  constructor; [discriminate | exact Hadded].
Qed.

(** A turn of the loop of [main] leaves the history alone or is a call of
    [chat]. *)
Lemma loop_body_history complete ev s :
  Chat.conversation_history (exec (Chat.loop_body complete ev) s)
  = Chat.conversation_history s
  \/ exists x,
       Chat.conversation_history (exec (Chat.loop_body complete ev) s)
       = Chat.conversation_history (exec (Chat.chat complete x) s).
Proof.
  unfold exec. destruct ev as [raw|]; [|left; reflexivity].
  unfold Chat.loop_body.
  destruct (PyStr.in_list _ _); [left; reflexivity|].
  destruct (negb _); [left; reflexivity|].
  destruct (String.eqb _ _); [left; reflexivity|].
  right. exists (PyStr.strip raw).
  unfold try_except, bind.
  destruct (Chat.chat complete (PyStr.strip raw) s) as [[r|[e| |]] s1];
    reflexivity.
Qed.

Lemma loop_body_seeded complete ev s :
  seeded (Chat.conversation_history s) ->
  seeded (Chat.conversation_history (exec (Chat.loop_body complete ev) s)).
Proof.
  intros H. destruct (loop_body_history complete ev s) as [-> | [x ->]].
  - exact H.
  - apply chat_seeded, H.
Qed.

Lemma chat_reachable_seeded s :
  chat_reachable s -> seeded (Chat.conversation_history s).
Proof.
  induction 1 as [|complete x s _ IH|complete ev s _ IH].
  - exists Chat.system_prompt, []. split; [reflexivity | constructor].
  - apply chat_seeded, IH.
  - apply loop_body_seeded, IH.
Qed.

(** The conversation of a web session after one more run of the script. *)
Lemma script_messages complete has_key chat_input s :
  WebChat.session_messages (exec (WebChat.script complete has_key chat_input) s)
  = WebChat.session_messages s
  \/ exists added,
       WebChat.session_messages (exec (WebChat.script complete has_key chat_input) s)
       = Some (WebChat.messages_of s ++ added)
       /\ Forall (fun t => role t <> system) added.
Proof.
  unfold exec. destruct has_key; [|left; rewrite script_no_key; reflexivity].
  destruct chat_input as [[|c p]|].
  - right. exists []. destruct (script_idle complete (Some "") s) as [pg ->];
      [right; reflexivity|].
    simpl. rewrite app_nil_r. split; [reflexivity | constructor].
  - right. destruct (script_exchange complete c p s) as [pg E]. cbv zeta in E.
    rewrite E. clear E.
    destruct (complete _) as [e|st]; [|destruct (failure st) as [e|]]; simpl.
    + exists [mkTurn user (String c p)].
      split; [reflexivity | repeat constructor; discriminate].
    + exists [mkTurn user (String c p)].
      split; [reflexivity | repeat constructor; discriminate].
    + eexists [mkTurn user (String c p); mkTurn assistant _].
      rewrite <- app_assoc. split; [reflexivity | repeat constructor; discriminate].
  - right. exists []. destruct (script_idle complete None s) as [pg ->];
      [left; reflexivity|].
    simpl. rewrite app_nil_r. split; [reflexivity | constructor].
Qed.

Lemma script_seeded complete has_key chat_input s :
  seeded (WebChat.messages_of s) ->
  seeded (WebChat.messages_of (exec (WebChat.script complete has_key chat_input) s)).
Proof.
  intros H.
  destruct (script_messages complete has_key chat_input s) as [E | (added & E & Ha)];
    unfold WebChat.messages_of at 1; rewrite E.
  - exact H.
  - apply seeded_app; assumption.
Qed.

Lemma web_reachable_seeded s : web_reachable s -> seeded (WebChat.messages_of s).
Proof.
  induction 1 as [|complete has_key chat_input s _ IH].
  - exists WebChat.system_prompt, []. split; [reflexivity | constructor].
  - apply script_seeded, IH.
Qed.

(** C4.  In every state that simple_chatbot.py reaches (from its initial
    list, by calls of [chat] and turns of the loop of [main], whether the
    request succeeds or fails) the history starts with a system turn, holds
    at most one system turn, and holds none at an index other than 0; a
    call of [chat] and a turn of the loop keep it so.  The same holds for
    the messages of a web session, across runs of its script. *)
Theorem system_turn_invariant :
  (forall s, chat_reachable s -> system_first (Chat.conversation_history s))
  /\ (forall complete x s,
        system_first (Chat.conversation_history s) ->
        system_first (Chat.conversation_history (exec (Chat.chat complete x) s)))
  /\ (forall complete ev s,
        system_first (Chat.conversation_history s) ->
        system_first (Chat.conversation_history (exec (Chat.loop_body complete ev) s)))
  /\ (forall s m,
        web_reachable s -> WebChat.session_messages s = Some m -> system_first m)
  /\ (forall complete has_key chat_input s,
        system_first (WebChat.messages_of s) ->
        system_first
          (WebChat.messages_of (exec (WebChat.script complete has_key chat_input) s))).
Proof.
  split; [|split; [|split; [|split]]].
  - intros s H. apply seeded_system_first, chat_reachable_seeded, H.
  - intros complete x s H.
    apply seeded_system_first, chat_seeded, system_first_seeded, H.
  - intros complete ev s H.
    apply seeded_system_first, loop_body_seeded, system_first_seeded, H.
  - intros s m H E. apply web_reachable_seeded in H.
    unfold WebChat.messages_of in H. rewrite E in H.
    apply seeded_system_first, H.
  - intros complete has_key chat_input s H.
    apply seeded_system_first, script_seeded, system_first_seeded, H.
Qed.

Lemma system_turn_invariant_witness :
  let complete := fun _ : Request => Raises (OpenAIError "quota") in
  system_first
    (Chat.conversation_history
       (exec (Chat.chat echo_stub "again")
             (exec (Chat.chat complete "x") Chat.initial))).
Proof.
  intros complete.
  apply (proj1 system_turn_invariant).
  apply reach_chat, reach_chat, reach_initial.
Defined.

End SystemTurn.

(* ===================================================================== *)
(** * The echo test *)
(* ===================================================================== *)

Section Echo.

Import Chat.

Lemma last_user_content_app h x : last_user_content (h ++ [mkTurn user x]) = x.
Proof. unfold last_user_content. rewrite fold_left_app. reflexivity. Qed.

Lemma chat_echo x s :
  chat echo_stub x s
  = (Normal ("Echo: " ++ x)%string,
     mkState (conversation_history s
              ++ [mkTurn user x; mkTurn assistant ("Echo: " ++ x)%string])
             (requests s ++ [chat_request (conversation_history s ++ [mkTurn user x])])
             (stdout s)).
Proof.
  rewrite chat_eq. cbv zeta. unfold echo_stub.
  cbn [messages chat_request]. rewrite last_user_content_app, <- app_assoc.
  reflexivity.
Qed.

(** C5.  With the echo stub as the client, [chat "hello"] returns
    [Echo: hello] and [chat "world"] after it returns [Echo: world], and
    the history is then the one before with the four turns user hello,
    assistant Echo: hello, user world, assistant Echo: world appended: from
    the initial list of the script that is its system turn followed by the
    four, from an empty list the four. *)
Theorem echo_two_exchanges :
  (forall s,
     exists s1 s2,
       chat echo_stub "hello" s = (Normal "Echo: hello", s1)
       /\ chat echo_stub "world" s1 = (Normal "Echo: world", s2)
       /\ conversation_history s2
          = conversation_history s
            ++ [mkTurn user "hello"; mkTurn assistant "Echo: hello";
                mkTurn user "world"; mkTurn assistant "Echo: world"])
  /\ conversation_history (exec (chats echo_stub ["hello"; "world"]) initial)
     = [mkTurn system system_prompt;
        mkTurn user "hello"; mkTurn assistant "Echo: hello";
        mkTurn user "world"; mkTurn assistant "Echo: world"]
  /\ result (chats echo_stub ["hello"; "world"]) initial
     = Normal ["Echo: hello"; "Echo: world"]
  /\ conversation_history
       (exec (chats echo_stub ["hello"; "world"]) (mkState [] [] []))
     = [mkTurn user "hello"; mkTurn assistant "Echo: hello";
        mkTurn user "world"; mkTurn assistant "Echo: world"].
Proof.
  split; [|split; [|split]]; try reflexivity.
  intros s. eexists. eexists.
  split; [apply chat_echo|]. split; [apply chat_echo|].
  simpl. rewrite <- app_assoc. reflexivity.
Qed.

End Echo.

(* ===================================================================== *)
(** * Empty input *)
(* ===================================================================== *)

Section EmptyInput.

(** [chat] itself has no check: the check of the input is in its callers. *)
Remark chat_has_no_guard complete s :
  Chat.conversation_history (exec (Chat.chat complete "") s)
  <> Chat.conversation_history s.
Proof.
  destruct (chat_history complete "" s) as (added & -> & _).
  intros E. apply (f_equal (@length _)) in E.
  rewrite length_app in E. simpl in E. lia.
Qed.

(** C6.  A line that is empty once stripped (the empty line is one) never
    reaches [chat]: the loop of [main] prints its request to type
    something and goes on, the history is unchanged and no request is sent.
    The web script does the same with an empty prompt. *)
Theorem empty_input_rejected complete raw s :
  PyStr.strip raw = "" ->
  Chat.loop_body complete (Chat.Line raw) s
  = (Normal Chat.Continue,
     Chat.mkState (Chat.conversation_history s) (Chat.requests s)
                  (Chat.stdout s ++ [Chat.PleaseType]))
  /\ Chat.conversation_history (exec (Chat.loop_body complete (Chat.Line raw)) s)
     = Chat.conversation_history s
  /\ Chat.requests (exec (Chat.loop_body complete (Chat.Line raw)) s)
     = Chat.requests s
  /\ (forall stream_complete w,
        WebChat.messages_of (exec (WebChat.script stream_complete true (Some "")) w)
        = WebChat.messages_of w
        /\ WebChat.requests (exec (WebChat.script stream_complete true (Some "")) w)
           = WebChat.requests w).
Proof.
  intros Hraw.
  assert (E : Chat.loop_body complete (Chat.Line raw) s
              = (Normal Chat.Continue,
                 Chat.mkState (Chat.conversation_history s) (Chat.requests s)
                              (Chat.stdout s ++ [Chat.PleaseType]))).
  { unfold Chat.loop_body. rewrite Hraw. reflexivity. }
  unfold exec. rewrite E. repeat split.
  - destruct (script_idle stream_complete (Some "") w) as [pg ->];
      [right; reflexivity | reflexivity].
  - destruct (script_idle stream_complete (Some "") w) as [pg ->];
      [right; reflexivity | reflexivity].
Qed.

Lemma empty_input_rejected_witness :
  Chat.conversation_history
    (exec (Chat.loop_body echo_stub (Chat.Line "")) Chat.initial)
  = Chat.conversation_history Chat.initial
  /\ Chat.requests (exec (Chat.loop_body echo_stub (Chat.Line "")) Chat.initial)
     = [].
Proof.
  pose proof (empty_input_rejected echo_stub "" Chat.initial eq_refl) as H.
  split; apply H.
Defined.

End EmptyInput.

(* ===================================================================== *)
(** * What a successful exchange ends with *)
(* ===================================================================== *)

Section Reply.

(** C7 fails as it is stated.  The reply is appended as it comes: a client
    that returns the empty text makes [chat] succeed and end the history with an assistant turn
    whose content is empty. *)
Lemma empty_reply_counterexample :
  ~ (forall (complete : Request -> Completion) x s r s',
       Chat.chat complete x s = (Normal r, s') ->
       exists t, final_turn (Chat.conversation_history s') = Some t
                 /\ role t = assistant /\ content t <> "").
Proof.
  intros H.
  destruct (H (fun _ => Returns "") "hi" Chat.initial "" _ eq_refl)
    as (t & Ht & _ & Hc).
  vm_compute in Ht. injection Ht as <-. apply Hc. reflexivity.
Qed.

(** So does a stream without a fragment, on the web page. *)
Lemma empty_stream_ends_with_empty_turn :
  let complete := fun _ : Request => StreamReturns (mkStream [None] None) in
  result (WebChat.script complete true (Some "hi")) WebChat.fresh = Normal tt
  /\ final_turn (WebChat.messages_of
                   (exec (WebChat.script complete true (Some "hi")) WebChat.fresh))
     = Some (mkTurn assistant "").
Proof. split; reflexivity. Qed.

(** C7, amended.  After a successful call of [chat] the history ends with
    an assistant turn whose content is the text the client returned, which
    is also what [chat] returns; that content is not empty exactly when the
    returned text is not.  After a run of the web script that ends normally
    on a prompt, the messages end with an assistant turn whose content is
    the fragments of the stream put together. *)
Theorem successful_exchange_ends_with_reply :
  (forall complete x s r s',
     Chat.chat complete x s = (Normal r, s') ->
     complete (Chat.chat_request (Chat.conversation_history s ++ [mkTurn user x]))
     = Returns r
     /\ final_turn (Chat.conversation_history s') = Some (mkTurn assistant r)
     /\ (r <> "" <->
         exists t, final_turn (Chat.conversation_history s') = Some t
                   /\ role t = assistant /\ content t <> ""))
  /\ (forall complete c p s s',
        WebChat.script complete true (Some (String c p)) s = (Normal tt, s') ->
        exists st,
          complete (WebChat.chat_request
                      (WebChat.messages_of s ++ [mkTurn user (String c p)]))
          = StreamReturns st
          /\ final_turn (WebChat.messages_of s')
             = Some (mkTurn assistant (accumulate (chunks st) ""))).
Proof.
  split.
  - intros complete x s r s' E. apply chat_normal in E. destruct E as [E ->].
    assert (F : final_turn
                  (Chat.conversation_history s
                   ++ [mkTurn user x; mkTurn assistant r])
                = Some (mkTurn assistant r)).
    { change [mkTurn user x; mkTurn assistant r]
        with ([mkTurn user x] ++ [mkTurn assistant r]).
      rewrite app_assoc. apply final_turn_app. }
    split; [exact E|]. split; [exact F|]. rewrite F. split.
    + intros Hr. exists (mkTurn assistant r). repeat split. exact Hr.
    + intros (t & Ht & _ & Hc). injection Ht as <-. exact Hc.
  - intros complete c p s s' E.
    apply script_exchange_normal in E. destruct E as (st & E & _ & H).
    exists st. split; [exact E|].
    unfold WebChat.messages_of. rewrite H.
    change [mkTurn user (String c p); mkTurn assistant (accumulate (chunks st) "")]
      with ([mkTurn user (String c p)] ++ [mkTurn assistant (accumulate (chunks st) "")]).
    rewrite app_assoc. apply final_turn_app.
Qed.

Lemma successful_exchange_ends_with_reply_witness :
  final_turn (Chat.conversation_history (exec (Chat.chat echo_stub "hello") Chat.initial))
  = Some (mkTurn assistant "Echo: hello").
Proof.
  apply (proj1 successful_exchange_ends_with_reply echo_stub "hello" Chat.initial
           "Echo: hello" _ eq_refl).
Defined.

End Reply.

(* ===================================================================== *)
(** * cli_researcher.py: the validation of the bullets flag *)
(* ===================================================================== *)

Section Bullets.

Import Researcher.

Variable complete : Request -> Completion.
Variable path_exists : string -> bool.
Variable makedirs_error : string -> option exn.
Variable write_error : string -> option exn.
Variable timestamp : string.

Let run_main := main complete path_exists makedirs_error write_error timestamp.
Let run_script := script complete path_exists makedirs_error write_error timestamp.

(** With the flag in range and nothing to save, [main] sends its one request:
    the validation is all that stands between the arguments and the client. *)
Lemma main_in_range_sends t b dir s :
  (1 <= b <= 10)%Z ->
  requests (exec (run_main (mkArgs t b dir true)) s)
  = requests s ++ [research_request t b].
Proof.
  intros Hb. unfold run_main, exec, main. cbn [bullets print_only output topic].
  replace (b <? 1)%Z with false by (symmetry; apply Z.ltb_ge; lia).
  replace (b >? 10)%Z with false by (symmetry; rewrite Z.gtb_ltb; apply Z.ltb_ge; lia).
  cbn [orb negb andb].
  unfold research_topic, try_except, bind, ret, print, modify, create, sys_exit.
  cbn [requests stdout made_dirs written].
  destruct (complete (research_request t b)) as [e|text]; cbn.
  - destruct (is_OpenAIError e); reflexivity.
  - reflexivity.
Qed.

(** C9.  When the bullets flag is below 1 or above 10, [main] prints the
    error and exits with status 1 at once: the requests sent are those sent
    before (none, from the initial state), no directory is made and no file
    written.  The same holds for the whole script, whatever the API key. *)
Theorem bullets_out_of_range_exits args s :
  (bullets args < 1 \/ 10 < bullets args)%Z ->
  run_main args s
  = (Abrupt (SystemExit 1),
     mkState (requests s) (stdout s ++ [BulletsError]) (made_dirs s) (written s))
  /\ requests (exec (run_main args) s) = requests s
  /\ (forall api_key,
        result (run_script api_key args) s = Abrupt (SystemExit 1)
        /\ requests (exec (run_script api_key args) s) = requests s
        /\ made_dirs (exec (run_script api_key args) s) = made_dirs s
        /\ written (exec (run_script api_key args) s) = written s).
Proof.
  intros Hb.
  assert (Hc : ((bullets args <? 1) || (bullets args >? 10))%Z = true).
  { apply orb_true_iff. rewrite Z.ltb_lt, Z.gtb_ltb, Z.ltb_lt. exact Hb. }
  assert (E : run_main args s
              = (Abrupt (SystemExit 1),
                 mkState (requests s) (stdout s ++ [BulletsError])
                         (made_dirs s) (written s))).
  { unfold run_main, main. rewrite Hc. reflexivity. }
  split; [exact E|]. split; [unfold exec; rewrite E; reflexivity|].
  intros api_key. unfold run_script, script, result, exec.
  destruct api_key as [[|c key]|].
  - repeat split.
  - erewrite bind_normal by reflexivity. fold run_main. rewrite E.
    repeat split.
  - repeat split.
Qed.

End Bullets.

Lemma bullets_out_of_range_exits_witness :
  Researcher.requests
    (exec (Researcher.main echo_stub (fun _ => true) (fun _ => None) (fun _ => None)
             "2026-01-01 00:00:00" (Researcher.mkArgs "Black Holes" 11 "." false))
          Researcher.initial)
  = [].
Proof.
  apply (bullets_out_of_range_exits echo_stub (fun _ => true) (fun _ => None)
           (fun _ => None) "2026-01-01 00:00:00"
           (Researcher.mkArgs "Black Holes" 11 "." false) Researcher.initial).
  right. simpl. lia.
Defined.

(* ===================================================================== *)
(** * cli_researcher.py: file names and saved files, for every topic *)
(* ===================================================================== *)

Section FileNames.

Import PyStr Researcher.

Lemma mem_In c class : In c class -> mem c class = true.
Proof.
  induction class as [|d class IH]; simpl; [contradiction|].
  intros [-> | H].
  - rewrite Ascii.eqb_refl. reflexivity.
  - rewrite (IH H). apply orb_true_r.
Qed.

Lemma sub_class_empty_id class s :
  (forall c, mem c class = true -> contains c s = false) ->
  sub_class_empty class s = s.
Proof.
  induction s as [|d s IH]; intros H; simpl; [reflexivity|].
  destruct (mem d class) eqn:Hd.
  - specialize (H d Hd). simpl in H. rewrite Ascii.eqb_refl in H. discriminate.
  - f_equal. apply IH. intros c Hc. specialize (H c Hc). simpl in H.
    apply orb_false_iff in H. apply H.
Qed.

Lemma replace_char_id a b s : contains a s = false -> replace_char a b s = s.
Proof.
  induction s as [|d s IH]; simpl; [reflexivity|].
  intros H. apply orb_false_iff in H. destruct H as [H1 H2].
  rewrite Ascii.eqb_sym, H1, (IH H2). reflexivity.
Qed.

Lemma take_id n s : len s <= n -> take n s = s.
Proof.
  unfold len. revert s.
  induction n as [|n IH]; intros [|d s]; simpl; intros H; try reflexivity; try lia.
  f_equal. apply IH. lia.
Qed.

Lemma prefix_append s t : String.prefix s (s ++ t)%string = true.
Proof.
  induction s as [|c s IH]; simpl.
  - destruct t; reflexivity.
  - destruct (Ascii.ascii_dec c c); [exact IH | congruence].
Qed.

(** X1.  For every topic the file name holds none of the nine unsafe
    characters and no space, and is at most 50 characters long. *)
Theorem sanitize_filename_always_safe topic :
  forallb (fun c => negb (contains c (sanitize_filename topic))) unsafe_chars = true
  /\ contains " " (sanitize_filename topic) = false
  /\ len (sanitize_filename topic) <= 50.
Proof.
  destruct (sanitize_filename_safe topic) as (H1 & H2 & H3).
  split; [|split; assumption].
  apply forallb_forall. intros c Hc. rewrite (H1 c (mem_In _ _ Hc)). reflexivity.
Qed.

(** X2.  Sanitising is idempotent: a name that [sanitize_filename] returned
    is returned unchanged when it is sanitised again. *)
Theorem sanitize_filename_idempotent topic :
  sanitize_filename (sanitize_filename topic) = sanitize_filename topic.
Proof.
  destruct (sanitize_filename_safe topic) as (H1 & H2 & H3).
  set (name := sanitize_filename topic) in *.
  assert (Hne : name <> "").
  { unfold name. rewrite sanitize_filename_eq. apply or_else_nonempty. discriminate. }
  rewrite (sanitize_filename_eq name). unfold stripped_name.
  rewrite (sub_class_empty_id _ _ H1), (replace_char_id _ _ _ H2), (take_id _ _ H3).
  unfold or_else. destruct name; [congruence | reflexivity].
Qed.

Lemma path_join_prefix dir name :
  name <> "" -> contains "/" name = false ->
  String.prefix dir (path_join dir (name ++ ".md")%string) = true.
Proof.
  intros Hne Hs. destruct name as [|c name]; [congruence|].
  simpl in Hs. apply orb_false_iff in Hs. destruct Hs as [Hc _].
  unfold path_join. cbn [append].
  assert (E : forall (A : Type) (x y : A),
              match c with "/"%char => x | _ => y end = y).
  { intros A x y. destruct c as [[] [] [] [] [] [] [] []]; try reflexivity.
    discriminate. }
  rewrite E.
  destruct (negb (truthy dir) || ends_with_char "/" dir); apply prefix_append.
Qed.

Lemma save_to_markdown_prefix topic dir :
  String.prefix dir (path_join dir (sanitize_filename topic ++ ".md")%string) = true.
Proof.
  destruct (sanitize_filename_safe topic) as (H1 & _ & _).
  apply path_join_prefix; [|apply H1; reflexivity].
  rewrite sanitize_filename_eq. apply or_else_nonempty. discriminate.
Qed.

(** X3.  Whatever the topic and the output directory, the path that
    [save_to_markdown] writes to starts with the directory: the file name
    holds no slash and is not empty, so the join keeps the directory.  The
    call writes that one file, header first, or raises what the write
    raised and writes nothing. *)
Theorem save_to_markdown_stays_in_directory write_error timestamp content topic dir s :
  let filepath := path_join dir (sanitize_filename topic ++ ".md")%string in
  String.prefix dir filepath = true
  /\ contains "/" (sanitize_filename topic) = false
  /\ save_to_markdown write_error timestamp content topic dir s
     = match write_error filepath with
       | Some e => (Abrupt (Exc e), s)
       | None =>
           (Normal filepath,
            mkState (requests s) (stdout s) (made_dirs s)
                    (written s ++ [(filepath, (header topic timestamp ++ content)%string)]))
       end.
Proof.
  intros filepath.
  destruct (sanitize_filename_safe topic) as (H1 & _ & _).
  assert (Hs : contains "/" (sanitize_filename topic) = false)
    by (apply H1; reflexivity).
  split; [|split; [exact Hs|]].
  - apply save_to_markdown_prefix.
  - unfold save_to_markdown, write_file, bind. fold filepath.
    destruct (write_error filepath); reflexivity.
Qed.

End FileNames.

(* ===================================================================== *)
(** * cli_researcher.py: how [main] ends *)
(* ===================================================================== *)

Section ResearcherRuns.

Import Researcher.

Variable complete : Request -> Completion.
Variable path_exists : string -> bool.
Variable makedirs_error : string -> option exn.
Variable write_error : string -> option exn.
Variable timestamp : string.

Lemma research_topic_eq t n s :
  research_topic complete t n s
  = match complete (research_request t n) with
    | Returns text =>
        (Normal (Some text),
         mkState (requests s ++ [research_request t n]) (stdout s)
                 (made_dirs s) (written s))
    | Raises e =>
        (Normal None,
         mkState (requests s ++ [research_request t n])
                 (stdout s ++ [if is_OpenAIError e then ApiError e
                               else UnexpectedError e])
                 (made_dirs s) (written s))
    end.
Proof.
  unfold research_topic, try_except, bind, create.
  destruct (complete _) as [e|text]; [|reflexivity].
  cbn. destruct (is_OpenAIError e); reflexivity.
Qed.

(** X4.  [research_topic] never raises: it sends one request, with the
    system prompt and the prompt built from the topic and the number of
    bullets and with no earlier message, and returns the text; when the
    call fails, with an OpenAI error or any other exception, it prints the
    error and returns [None].  It touches no file. *)
Theorem research_topic_never_raises t n s :
  exists r out,
    research_topic complete t n s
    = (Normal r,
       mkState (requests s ++ [research_request t n]) (stdout s ++ out)
               (made_dirs s) (written s))
    /\ messages (research_request t n)
       = [mkTurn system SYSTEM_PROMPT; mkTurn user (user_prompt t n)]
    /\ match complete (research_request t n) with
       | Returns text => r = Some text /\ out = []
       | Raises (OpenAIError msg) => r = None /\ out = [ApiError (OpenAIError msg)]
       | Raises e => r = None /\ out = [UnexpectedError e]
       end.
Proof.
  rewrite research_topic_eq.
  destruct (complete _) as [e|text].
  - eexists. eexists. split; [reflexivity|]. split; [reflexivity|].
    destruct e; split; reflexivity.
  - exists (Some text), []. rewrite app_nil_r. repeat split.
Qed.

Let run_main := main complete path_exists makedirs_error write_error timestamp.

Lemma bullets_in_range b :
  (1 <= b <= 10)%Z -> ((b <? 1) || (b >? 10))%Z = false.
Proof.
  intros H. apply orb_false_iff. rewrite Z.gtb_ltb, !Z.ltb_ge. lia.
Qed.

(** [main] past the validation, when making the directory does not fail. *)
Lemma main_in_range_eq t b out po s :
  (1 <= b <= 10)%Z ->
  (po = false -> path_exists out = false -> makedirs_error out = None) ->
  let req := research_request t b in
  let dirs := if po || path_exists out then made_dirs s else made_dirs s ++ [out] in
  let filepath := path_join out (sanitize_filename t ++ ".md")%string in
  run_main (mkArgs t b out po) s
  = match complete req with
    | Raises e =>
        (Abrupt (SystemExit 1),
         mkState (requests s ++ [req])
                 (stdout s ++ [Header t b;
                               if is_OpenAIError e then ApiError e
                               else UnexpectedError e;
                               Failed])
                 dirs (written s))
    | Returns text =>
        if po
        then (Normal tt,
              mkState (requests s ++ [req])
                      (stdout s ++ [Header t b; Results text; Complete])
                      dirs (written s))
        else match write_error filepath with
             | None =>
                 (Normal tt,
                  mkState (requests s ++ [req])
                          (stdout s ++ [Header t b; Results text;
                                        Saved filepath; Complete])
                          dirs
                          (written s
                           ++ [(filepath, (header t timestamp ++ text)%string)]))
             | Some e =>
                 if is_IOError e
                 then (Abrupt (SystemExit 1),
                       mkState (requests s ++ [req])
                               (stdout s ++ [Header t b; Results text; SaveError e])
                               dirs (written s))
                 else (Abrupt (Exc e),
                       mkState (requests s ++ [req])
                               (stdout s ++ [Header t b; Results text])
                               dirs (written s))
             end
    end.
Proof.
  intros Hb Hmk req dirs filepath. unfold run_main, main.
  cbn [bullets print_only output topic].
  rewrite (bullets_in_range _ Hb).
  erewrite bind_normal by reflexivity.
  assert (E : (if negb po && negb (path_exists out)
               then makedirs makedirs_error out else ret tt) s
              = (Normal tt, mkState (requests s) (stdout s) dirs (written s))).
  { unfold dirs. destruct po; [destruct s; reflexivity|].
    destruct (path_exists out) eqn:Hex; [destruct s; reflexivity|].
    cbn [negb andb orb]. unfold makedirs. rewrite (Hmk eq_refl eq_refl).
    reflexivity. }
  erewrite bind_normal by exact E.
  erewrite bind_normal by reflexivity.
  unfold bind at 1. rewrite research_topic_eq.
  cbn [requests stdout made_dirs written]. fold req.
  clearbody dirs. clear E.
  destruct (complete req) as [e|text].
  - unfold bind, print, modify, sys_exit.
    cbn [requests stdout made_dirs written]. rewrite <- !app_assoc. reflexivity.
  - destruct po.
    + unfold bind, print, modify, ret.
      cbn [requests stdout made_dirs written negb]. rewrite <- !app_assoc.
      reflexivity.
    + cbn [negb]. unfold try_except, save_to_markdown, write_file.
      fold filepath.
      destruct (write_error filepath) as [e|].
      * unfold bind, raise, print, modify, sys_exit.
        cbn [requests stdout made_dirs written].
        destruct (is_IOError e); cbn [requests stdout made_dirs written];
          rewrite <- !app_assoc; reflexivity.
      * unfold bind, print, modify, ret.
        cbn [requests stdout made_dirs written]. rewrite <- !app_assoc.
        reflexivity.
Qed.

(** X5.  With the print-only flag [main] makes no directory and writes no
    file, whatever the other arguments are and whatever the client does. *)
Theorem print_only_touches_no_file args s :
  print_only args = true ->
  made_dirs (exec (run_main args) s) = made_dirs s
  /\ written (exec (run_main args) s) = written s.
Proof.
  intros Hp. destruct args as [t b out po]. cbn in Hp. subst po.
  destruct ((b <? 1) || (b >? 10))%Z eqn:Hb.
  - unfold run_main, exec, main. cbn [bullets]. rewrite Hb. split; reflexivity.
  - apply orb_false_iff in Hb. rewrite Z.gtb_ltb, !Z.ltb_ge in Hb.
    unfold exec. rewrite main_in_range_eq by (lia || discriminate). cbv zeta.
    destruct (complete _); split; reflexivity.
Qed.

(** X6.  With the flag in range, a client that returns a text and a file
    system that refuses nothing, [main] ends normally: it has sent one
    request, made the output directory when it did not exist, and written
    one file, named after the sanitised topic with the extension md inside
    that directory, holding the header and then the text. *)
Theorem main_success_saves_report args text s :
  (1 <= bullets args <= 10)%Z ->
  print_only args = false ->
  (path_exists (output args) = false -> makedirs_error (output args) = None) ->
  complete (research_request (topic args) (bullets args)) = Returns text ->
  write_error (path_join (output args)
                         (sanitize_filename (topic args) ++ ".md")%string) = None ->
  let filepath :=
    path_join (output args) (sanitize_filename (topic args) ++ ".md")%string in
  result (run_main args) s = Normal tt
  /\ requests (exec (run_main args) s)
     = requests s ++ [research_request (topic args) (bullets args)]
  /\ made_dirs (exec (run_main args) s)
     = (if path_exists (output args) then made_dirs s
        else made_dirs s ++ [output args])
  /\ written (exec (run_main args) s)
     = written s ++ [(filepath, (header (topic args) timestamp ++ text)%string)]
  /\ String.prefix (output args) filepath = true.
Proof.
  destruct args as [t b out po]. cbn [bullets print_only output topic].
  intros Hb -> Hmk Hc Hw. cbv zeta. unfold result, exec.
  rewrite main_in_range_eq by auto. cbv zeta. rewrite Hc, Hw.
  cbn [fst snd requests stdout made_dirs written orb].
  split; [reflexivity|]. split; [reflexivity|]. split; [reflexivity|].
  split; [reflexivity|].
  apply (save_to_markdown_prefix t out).
Qed.

(** X7.  With the flag in range, when the request fails [main] prints the
    error and that the research failed, and exits with status 1; nothing is
    written. *)
Theorem main_remote_failure_exits args e s :
  (1 <= bullets args <= 10)%Z ->
  (print_only args = false -> path_exists (output args) = false ->
   makedirs_error (output args) = None) ->
  complete (research_request (topic args) (bullets args)) = Raises e ->
  result (run_main args) s = Abrupt (SystemExit 1)
  /\ written (exec (run_main args) s) = written s
  /\ exists err,
       stdout (exec (run_main args) s)
       = stdout s ++ [Header (topic args) (bullets args); err; Failed]
       /\ (err = ApiError e \/ err = UnexpectedError e).
Proof.
  destruct args as [t b out po]. cbn [bullets print_only output topic].
  intros Hb Hmk Hc. unfold result, exec.
  rewrite main_in_range_eq by auto. cbv zeta. rewrite Hc. cbn.
  split; [reflexivity|]. split; [reflexivity|].
  eexists. split; [reflexivity|].
  destruct (is_OpenAIError e); [left | right]; reflexivity.
Qed.

(** X8.  When the report cannot be written, an IOError makes [main] print
    the error and exit with status 1, after the request was sent and the
    result printed; any other exception of the write leaves [main] as it
    is.  In both cases no file is recorded as written. *)
Theorem main_save_error_exits args text e s :
  (1 <= bullets args <= 10)%Z ->
  print_only args = false ->
  (path_exists (output args) = false -> makedirs_error (output args) = None) ->
  complete (research_request (topic args) (bullets args)) = Returns text ->
  write_error (path_join (output args)
                         (sanitize_filename (topic args) ++ ".md")%string) = Some e ->
  result (run_main args) s
  = (if is_IOError e then Abrupt (SystemExit 1) else Abrupt (Exc e))
  /\ written (exec (run_main args) s) = written s
  /\ requests (exec (run_main args) s)
     = requests s ++ [research_request (topic args) (bullets args)]
  /\ stdout (exec (run_main args) s)
     = stdout s ++ [Header (topic args) (bullets args); Results text]
       ++ (if is_IOError e then [SaveError e] else []).
Proof.
  destruct args as [t b out po]. cbn [bullets print_only output topic].
  intros Hb -> Hmk Hc Hw. unfold result, exec.
  rewrite main_in_range_eq by auto. cbv zeta. rewrite Hc, Hw.
  destruct (is_IOError e); cbn; repeat split.
Qed.

(** X9.  When making the output directory fails, the exception leaves
    [main] before anything is sent or printed. *)
Theorem main_makedirs_failure_propagates args e s :
  (1 <= bullets args <= 10)%Z ->
  print_only args = false ->
  path_exists (output args) = false ->
  makedirs_error (output args) = Some e ->
  run_main args s = (Abrupt (Exc e), s).
Proof.
  destruct args as [t b out po]. cbn [bullets print_only output topic].
  intros Hb -> Hex Hmk. unfold run_main, main.
  cbn [bullets print_only output topic].
  rewrite (bullets_in_range _ Hb), Hex.
  erewrite bind_normal by reflexivity.
  cbn [negb andb]. unfold makedirs. rewrite Hmk. reflexivity.
Qed.

(** X10.  Without an API key ([getenv] gives [None] or the empty string)
    the script prints the error and exits with status 1 before the
    arguments are looked at: nothing is sent, made or written. *)
Theorem script_missing_key_exits api_key args s :
  api_key = None \/ api_key = Some "" ->
  script complete path_exists makedirs_error write_error timestamp api_key args s
  = (Abrupt (SystemExit 1),
     mkState (requests s) (stdout s ++ [MissingKey]) (made_dirs s) (written s)).
Proof. intros [-> | ->]; reflexivity. Qed.

End ResearcherRuns.

(* ===================================================================== *)
(** * simple_chatbot.py: the loop of [main] *)
(* ===================================================================== *)

Section MainLoop.

Import Chat.

Variable complete : Request -> Completion.

(** What a call of [chat] leaves, however it ends. *)
Lemma chat_exec x s :
  exists replies,
    exec (chat complete x) s
    = mkState (conversation_history s ++ mkTurn user x :: replies)
              (requests s ++ [chat_request (conversation_history s ++ [mkTurn user x])])
              (stdout s)
    /\ (replies = [] \/ exists r, replies = [mkTurn assistant r]).
Proof.
  unfold exec. rewrite chat_eq. cbv zeta.
  destruct (complete _) as [e|text]; simpl.
  - exists []. split; [reflexivity | left; reflexivity].
  - exists [mkTurn assistant text]. rewrite <- app_assoc.
    split; [reflexivity | right; exists text; reflexivity].
Qed.

(** A turn of the loop ends normally; it leaves the history and the
    requests alone, or it is a call of [chat] on a text that is not empty. *)
Lemma loop_body_step ev s :
  exists c s',
    loop_body complete ev s = (Normal c, s')
    /\ ((conversation_history s' = conversation_history s
         /\ requests s' = requests s)
        \/ exists x,
             x <> ""
             /\ conversation_history s'
                = conversation_history (exec (chat complete x) s)
             /\ requests s' = requests (exec (chat complete x) s)).
Proof.
  destruct ev as [raw|]; unfold loop_body.
  2:{ eexists. eexists. split; [reflexivity | left; split; reflexivity]. }
  set (x := PyStr.strip raw).
  destruct (PyStr.in_list _ _).
  { eexists. eexists. split; [reflexivity | left; split; reflexivity]. }
  destruct (PyStr.truthy x) eqn:Hx; cbn [negb].
  2:{ eexists. eexists. split; [reflexivity | left; split; reflexivity]. }
  destruct (String.eqb _ _).
  { eexists. eexists. split; [reflexivity | left; split; reflexivity]. }
  assert (Hne : x <> "") by (intros E; rewrite E in Hx; discriminate).
  pose proof (chat_eq complete x s) as Ec. cbv zeta in Ec.
  unfold try_except, bind.
  destruct (complete _) as [e|text]; rewrite Ec;
    (eexists; eexists; split; [reflexivity|]; right; exists x;
     unfold exec; rewrite Ec;
     split; [exact Hne | split; reflexivity]).
Qed.

Lemma main_loop_cons ev stdin s c s' :
  loop_body complete ev s = (Normal c, s') ->
  main_loop complete (ev :: stdin) s
  = match c with
    | Break => (Normal tt, s')
    | Continue => main_loop complete stdin s'
    end.
Proof.
  intros E. cbn [main_loop]. erewrite bind_normal by exact E.
  destruct c; reflexivity.
Qed.

(** What every turn of the loop and every print keeps, the loop keeps. *)
Lemma main_loop_invariant (P : State -> Prop) :
  (forall o s, P s -> P (exec (print o) s)) ->
  (forall ev s, P s -> P (exec (loop_body complete ev) s)) ->
  forall stdin s, P s -> P (exec (main_loop complete stdin) s).
Proof.
  intros Hprint Hbody. induction stdin as [|ev stdin IH]; intros s Hs.
  - apply Hprint, Hs.
  - destruct (loop_body_step ev s) as (c & s' & E & _).
    specialize (Hbody ev s Hs). unfold exec in Hbody |- *.
    rewrite (main_loop_cons _ _ _ _ _ E). rewrite E in Hbody. simpl in Hbody.
    destruct c; [apply IH, Hbody | exact Hbody].
Qed.

Lemma main_invariant (P : State -> Prop) :
  (forall o s, P s -> P (exec (print o) s)) ->
  (forall ev s, P s -> P (exec (loop_body complete ev) s)) ->
  forall stdin s, P s -> P (exec (main complete stdin) s).
Proof.
  intros Hprint Hbody stdin s Hs. unfold main, exec.
  erewrite bind_normal by reflexivity.
  apply (main_loop_invariant P Hprint Hbody), (Hprint Banner), Hs.
Qed.


Lemma user_count_app h1 h2 : user_count (h1 ++ h2) = user_count h1 + user_count h2.
Proof. unfold user_count. rewrite filter_app, length_app. reflexivity. Qed.

Lemma user_count_exchange x replies :
  replies = [] \/ (exists r, replies = [mkTurn assistant r]) ->
  user_count (mkTurn user x :: replies) = 1.
Proof. intros [-> | [r ->]]; reflexivity. Qed.

Lemma extends_refl_on s s' :
  conversation_history s' = conversation_history s ->
  requests s' = requests s -> extends s s'.
Proof.
  intros Hh Hr. exists [], []. rewrite !app_nil_r.
  repeat split; try assumption. constructor.
Qed.

Lemma extends_chat s0 s s' x :
  extends s0 s ->
  conversation_history s' = conversation_history (exec (chat complete x) s) ->
  requests s' = requests (exec (chat complete x) s) ->
  extends s0 s'.
Proof.
  intros (added & sent & Hh & Hr & Hl & Hs) Eh Er.
  destruct (chat_exec x s) as (replies & E & Hrep).
  rewrite E in Eh, Er. cbn in Eh, Er.
  exists (added ++ mkTurn user x :: replies),
         (sent ++ [chat_request (conversation_history s ++ [mkTurn user x])]).
  split; [rewrite Eh, Hh, <- app_assoc; reflexivity|].
  split; [rewrite Er, Hr, <- app_assoc; reflexivity|].
  split.
  - rewrite length_app, user_count_app, (user_count_exchange _ _ Hrep), Hl.
    reflexivity.
  - apply Forall_app. split; [exact Hs|].
    constructor; [discriminate|].
    destruct Hrep as [-> | [r ->]]; repeat constructor. discriminate.
Qed.

(** X12.  A call of [chat] and a whole run of [main] only append: the
    history afterwards is the history before followed by the turns added,
    none of them a system turn, and the requests sent are those sent before
    followed by one request for each user turn added. *)
Theorem main_appends_only :
  (forall x s, extends s (exec (chat complete x) s))
  /\ (forall stdin s, extends s (exec (main complete stdin) s)).
Proof.
  split.
  - intros x s.
    apply (extends_chat s s _ x); [apply extends_refl_on| |]; reflexivity.
  - intros stdin s. apply (main_invariant (extends s)).
    + intros o s1 H. destruct H as (a & b & H1 & H2 & H3 & H4).
      exists a, b. repeat split; assumption.
    + intros ev s1 H.
      destruct (loop_body_step ev s1) as (c & s' & E & Hcase).
      unfold exec at 1. rewrite E. cbn [snd].
      destruct Hcase as [[Hh Hr] | (x & _ & Hh & Hr)].
      * destruct H as (a & b & H1 & H2 & H3 & H4).
        exists a, b. rewrite Hh, Hr. repeat split; assumption.
      * apply (extends_chat s s1 s' x H Hh Hr).
    + apply extends_refl_on; reflexivity.
Qed.

End MainLoop.

Section MainLoopProperties.

Import Chat.

Variable complete : Request -> Completion.

(** X13.  [main] never stores an empty user turn: when no user turn of the
    history is empty before, none is after the run, whatever is typed (an
    empty or blank line is refused before [chat] is called). *)
Theorem main_user_turns_nonempty stdin s :
  user_turns_nonempty (conversation_history s) ->
  user_turns_nonempty (conversation_history (exec (main complete stdin) s)).
Proof.
  apply (main_invariant complete
           (fun s => user_turns_nonempty (conversation_history s))).
  - intros o s1 H. exact H.
  - intros ev s1 H.
    destruct (loop_body_step complete ev s1) as (c & s' & E & Hcase).
    unfold exec at 1. rewrite E. cbn [snd].
    destruct Hcase as [[-> _] | (x & Hx & -> & _)]; [exact H|].
    destruct (chat_exec complete x s1) as (replies & -> & Hrep). cbn.
    apply Forall_app. split; [exact H|].
    constructor; [intros _; exact Hx|].
    destruct Hrep as [-> | [r ->]]; repeat constructor. discriminate.
Qed.

Lemma sent_from_app h more req : sent_from h req -> sent_from (h ++ more) req.
Proof.
  intros [[later ->] Hx]. split; [|exact Hx].
  exists (later ++ more). rewrite app_assoc. reflexivity.
Qed.

Lemma log_agrees_chat x s : log_agrees s -> log_agrees (exec (chat complete x) s).
Proof.
  intros [Hl Hf]. destruct (chat_exec complete x s) as (replies & -> & Hrep).
  split; cbn [conversation_history requests].
  - rewrite length_app, user_count_app, (user_count_exchange _ _ Hrep), Hl.
    reflexivity.
  - apply Forall_app. split.
    + revert Hf. apply Forall_impl. intros req. apply sent_from_app.
    + constructor; [|constructor]. split; cbn [messages chat_request].
      * exists replies. rewrite <- app_assoc. reflexivity.
      * exists x. apply final_turn_app.
Qed.

End MainLoopProperties.

(** X14.  In every state simple_chatbot.py reaches, the requests sent are as
    many as the user turns of the history, and each request carried a
    beginning of the present history that ends with a user turn: nothing
    sent is ever dropped from the history or reordered. *)
Theorem requests_match_history s : chat_reachable s -> log_agrees s.
Proof.
  induction 1 as [|complete x s _ IH|complete ev s _ IH].
  - split; [reflexivity | constructor].
  - apply log_agrees_chat, IH.
  - destruct (loop_body_step complete ev s) as (c & s' & E & Hcase).
    unfold exec. rewrite E. cbn [snd].
    destruct Hcase as [[Hh Hr] | (x & _ & Hh & Hr)]; unfold log_agrees.
    + rewrite Hh, Hr. exact IH.
    + rewrite Hh, Hr. apply log_agrees_chat, IH.
Qed.

Lemma requests_match_history_witness :
  log_agrees
    (exec (Chat.chat (fun _ => Raises (OpenAIError "quota")) "again")
          (exec (Chat.chat echo_stub "hello") Chat.initial)).
Proof.
  apply requests_match_history.
  apply reach_chat, reach_chat, reach_initial.
Defined.

Lemma main_user_turns_nonempty_witness :
  user_turns_nonempty
    (Chat.conversation_history
       (exec (Chat.main echo_stub
                [Chat.Line "hello"; Chat.Line "   "; Chat.Line ""; Chat.Line "quit"])
             Chat.initial)).
Proof.
  apply main_user_turns_nonempty.
  repeat constructor. discriminate.
Defined.

Section Commands.

Import Chat.

Variable complete : Request -> Completion.

Lemma nth_error_enumerate {A} (l : list A) : forall start i t,
  nth_error l i = Some t ->
  nth_error (combine (seq start (length l)) l) i = Some (start + i, t).
Proof.
  induction l as [|a l IH]; intros start [|i] t H; simpl in *; try discriminate.
  - injection H as ->. rewrite Nat.add_0_r. reflexivity.
  - rewrite (IH (S start) i t H), Nat.add_succ_r. reflexivity.
Qed.

(** X15.  The history command, in any letter case and with blanks around
    it, is read-only: the loop goes on, the history and the requests are
    unchanged, and what is printed has one entry for each turn, the system
    turn included, each with its position counted from 1, its role in
    capitals and its content cut to 100 characters and three dots when it
    is longer. *)
Theorem history_command_is_read_only raw s :
  PyStr.lower (PyStr.strip raw) = "history" ->
  exists entries,
    loop_body complete (Line raw) s
    = (Normal Continue,
       mkState (conversation_history s) (requests s)
               (stdout s ++ [History entries]))
    /\ length entries = length (conversation_history s)
    /\ (forall i t,
          nth_error (conversation_history s) i = Some t ->
          nth_error entries i
          = Some (PyStr.of_nat (i + 1) ++ ". ["
                  ++ PyStr.upper (role_name (role t)) ++ "]: "
                  ++ (if (100 <? PyStr.len (content t))%nat
                      then PyStr.take 100 (content t) ++ "..."
                      else content t))%string).
Proof.
  intros H. unfold loop_body. rewrite H.
  destruct (PyStr.strip raw) as [|c x]; [discriminate|].
  cbn [PyStr.in_list PyStr.truthy negb String.eqb orb].
  eexists. split; [reflexivity|]. split.
  - unfold enumerate. rewrite length_map, length_combine, length_seq.
    apply Nat.min_id.
  - intros i t Hi. unfold enumerate.
    rewrite nth_error_map, (nth_error_enumerate _ 0 i t Hi). reflexivity.
Qed.

(** X16.  [main] sends at most one request for each line typed. *)
Theorem main_sends_at_most_one_request_per_line stdin s :
  length (requests (exec (main complete stdin) s))
  <= length (requests s) + length stdin.
Proof.
  unfold main, exec. erewrite bind_normal by reflexivity.
  change (length (requests s))
    with (length (requests (mkState (conversation_history s) (requests s)
                                    (stdout s ++ [Banner])))).
  generalize (mkState (conversation_history s) (requests s) (stdout s ++ [Banner])).
  clear s.
  induction stdin as [|ev stdin IH]; intros s; [simpl; lia|].
  destruct (loop_body_step complete ev s) as (c & s' & E & Hcase).
  rewrite (main_loop_cons complete _ stdin _ _ _ E).
  assert (Hs : length (requests s') <= S (length (requests s))).
  { destruct Hcase as [[_ ->] | (x & _ & _ & ->)]; [lia|].
    destruct (chat_exec complete x s) as (replies & -> & _). cbn.
    rewrite length_app. simpl. lia. }
  destruct c; [|simpl; lia].
  specialize (IH s'). simpl length. lia.
Qed.

End Commands.

Lemma history_command_is_read_only_witness :
  exists entries,
    Chat.loop_body echo_stub (Chat.Line "  History ") Chat.initial
    = (Normal Chat.Continue, Chat.mkState (Chat.conversation_history Chat.initial) []
                                          [Chat.History entries])
    /\ length entries = 1.
Proof.
  destruct (history_command_is_read_only echo_stub "  History " Chat.initial eq_refl)
    as (entries & E & L & _).
  exists entries. split; [exact E | exact L].
Defined.

(* ===================================================================== *)
(** * web_chatbot.py: failures, the page, and the log of requests *)
(* ===================================================================== *)

Section WebRuns.

Import WebChat.

Variable complete : Request -> Streaming.

(** X17.  When the streaming request of a run fails, at the call or in the
    middle of the stream, the run ends with that exception and the messages
    are the old ones with the user turn of the prompt appended: the
    fragments received so far are not stored, and no assistant turn is. *)
Theorem web_failed_exchange_keeps_user_turn c p s e :
  let prompt := String c p in
  let req := chat_request (messages_of s ++ [mkTurn user prompt]) in
  (complete req = StreamRaises e
   \/ exists deltas, complete req = StreamReturns (mkStream deltas (Some e))) ->
  result (script complete true (Some prompt)) s = Abrupt (Exc e)
  /\ session_messages (exec (script complete true (Some prompt)) s)
     = Some (messages_of s ++ [mkTurn user prompt])
  /\ requests (exec (script complete true (Some prompt)) s) = requests s ++ [req].
Proof.
  intros prompt req H.
  destruct (script_exchange complete c p s) as [pg E]. cbv zeta in E.
  fold prompt in E. fold req in E. unfold result, exec. rewrite E.
  destruct H as [-> | [deltas ->]]; repeat split.
Qed.

Lemma shown_cons m msgs :
  shown (m :: msgs)
  = if negb (Role_eqb (role m) system)
    then ChatMessage (role m) (content m) :: shown msgs
    else shown msgs.
Proof. unfold shown. simpl. destruct (negb _); reflexivity. Qed.

(** X18.  The loop that displays the history adds to the page one chat
    message for each message that is not a system message, in order, and
    nothing for a system message; it changes nothing else. *)
Theorem display_hides_system_turn msgs s :
  display msgs s
  = (Normal tt, mkState (session_messages s) (requests s) (page s ++ shown msgs))
  /\ Forall (fun e => forall text, e <> ChatMessage system text) (shown msgs)
  /\ length (shown msgs) + system_count msgs = length msgs.
Proof.
  split; [|split].
  - revert s. induction msgs as [|m msgs IH]; intros s.
    + simpl. rewrite app_nil_r. destruct s; reflexivity.
    + cbn [display]. rewrite shown_cons.
      destruct (negb (Role_eqb (role m) system)).
      * erewrite bind_normal by apply render_eq. rewrite IH.
        cbn [session_messages requests page]. rewrite <- app_assoc. reflexivity.
      * erewrite bind_normal by reflexivity. apply IH.
  - induction msgs as [|m msgs IH]; [constructor|].
    rewrite shown_cons. destruct (role m) eqn:Hr; cbn [Role_eqb negb];
      try exact IH; constructor; try exact IH; intros text; discriminate.
  - induction msgs as [|m msgs IH]; [reflexivity|].
    rewrite shown_cons. unfold system_count in *. cbn [filter length].
    unfold is_system at 1.
    destruct (Role_eqb (role m) system); cbn [negb length]; lia.
Qed.

(** X19.  A run of the script sends a request only when the key is set and
    the prompt is not empty, and then exactly one: the messages so far with
    the user turn of the prompt at the end. *)
Theorem script_sends_only_on_prompt has_key chat_input s :
  requests (exec (script complete has_key chat_input) s)
  = match has_key, chat_input with
    | true, Some (String c p) =>
        requests s
        ++ [chat_request (messages_of s ++ [mkTurn user (String c p)])]
    | _, _ => requests s
    end.
Proof.
  unfold exec. destruct has_key; [|rewrite script_no_key; reflexivity].
  destruct chat_input as [[|c p]|].
  - destruct (script_idle complete (Some "") s) as [pg ->];
      [right; reflexivity | reflexivity].
  - destruct (script_exchange complete c p s) as [pg E]. cbv zeta in E.
    rewrite E. destruct (complete _) as [e|st]; [reflexivity|].
    destruct (failure st); reflexivity.
  - destruct (script_idle complete None s) as [pg ->];
      [left; reflexivity | reflexivity].
Qed.

Lemma accumulate_joined deltas : forall acc,
  accumulate deltas acc = (acc ++ joined deltas)%string.
Proof.
  unfold accumulate.
  induction deltas as [|[f|] deltas IH]; intros acc; simpl.
  - induction acc as [|a acc IHa]; simpl; congruence.
  - rewrite IH.
    induction acc as [|a acc IHa]; simpl; [reflexivity | f_equal; exact IHa].
  - apply IH.
Qed.

(** X20.  The loop over the stream returns the fragments joined in order,
    the chunks without content left out; so the assistant turn that a run
    stores, when it ends normally on a prompt, holds the joined fragments
    of the stream it was sent. *)
Theorem streamed_reply_is_joined_fragments c p s s' :
  script complete true (Some (String c p)) s = (Normal tt, s') ->
  (forall deltas acc w,
     result (consume deltas acc) w = Normal (acc ++ joined deltas)%string)
  /\ exists st,
       complete (chat_request (messages_of s ++ [mkTurn user (String c p)]))
       = StreamReturns st
       /\ failure st = None
       /\ messages_of s'
          = messages_of s ++ [mkTurn user (String c p);
                              mkTurn assistant (joined (chunks st))].
Proof.
  intros E. split.
  - intros deltas acc w. destruct (consume_frame deltas acc w) as [pg Ec].
    unfold result. rewrite Ec, accumulate_joined. reflexivity.
  - apply script_exchange_normal in E. destruct E as (st & E & F & H).
    exists st. split; [exact E|]. split; [exact F|].
    unfold messages_of at 1. rewrite H, accumulate_joined. reflexivity.
Qed.

Lemma web_log_agrees_same s s' :
  messages_of s' = messages_of s -> requests s' = requests s ->
  web_log_agrees s -> web_log_agrees s'.
Proof. unfold web_log_agrees. intros -> ->. trivial. Qed.

Lemma web_log_agrees_exchange s s' x replies :
  messages_of s' = messages_of s ++ mkTurn user x :: replies ->
  requests s' = requests s ++ [chat_request (messages_of s ++ [mkTurn user x])] ->
  (replies = [] \/ exists r, replies = [mkTurn assistant r]) ->
  web_log_agrees s -> web_log_agrees s'.
Proof.
  unfold web_log_agrees. intros -> -> Hrep [Hl Hf]. split.
  - rewrite length_app, user_count_app, (user_count_exchange _ _ Hrep), Hl.
    reflexivity.
  - apply Forall_app. split.
    + revert Hf. apply Forall_impl. intros req. apply sent_from_app.
    + constructor; [|constructor]. split; cbn [messages chat_request].
      * exists replies. rewrite <- app_assoc. reflexivity.
      * exists x. apply final_turn_app.
Qed.

Lemma script_web_log_agrees has_key chat_input s :
  web_log_agrees s -> web_log_agrees (exec (script complete has_key chat_input) s).
Proof.
  intros H. unfold exec.
  destruct has_key; [|rewrite script_no_key; exact H].
  destruct chat_input as [[|c p]|].
  - destruct (script_idle complete (Some "") s) as [pg ->]; [right; reflexivity|].
    revert H. apply web_log_agrees_same; reflexivity.
  - destruct (script_exchange complete c p s) as [pg E]. cbv zeta in E.
    rewrite E. clear E.
    destruct (complete _) as [e|st]; [|destruct (failure st) as [e|]]; cbn [snd].
    + revert H. apply (web_log_agrees_exchange _ _ (String c p) []);
        [reflexivity | reflexivity | left; reflexivity].
    + revert H. apply (web_log_agrees_exchange _ _ (String c p) []);
        [reflexivity | reflexivity | left; reflexivity].
    + revert H.
      apply (web_log_agrees_exchange _ _ (String c p)
               [mkTurn assistant (accumulate (chunks st) "")]);
        [|reflexivity | right; eexists; reflexivity].
      unfold messages_of at 1. cbn [session_messages].
      rewrite <- app_assoc. reflexivity.
  - destruct (script_idle complete None s) as [pg ->]; [left; reflexivity|].
    revert H. apply web_log_agrees_same; reflexivity.
Qed.

End WebRuns.

(** X21.  In every state a web session reaches, the requests sent are as
    many as the user turns of the messages, and each request carried a
    beginning of the present messages that ends with a user turn. *)
Theorem web_requests_match_history s : web_reachable s -> web_log_agrees s.
Proof.
  induction 1 as [|complete has_key chat_input s _ IH].
  - split; [reflexivity | constructor].
  - apply script_web_log_agrees, IH.
Qed.

(* ===================================================================== *)
(** * start.py *)
(* ===================================================================== *)

(** X22.  start.py never ends with an exception.  Without an API key
    ([getenv] gives [None] or the empty string) it prints the error and
    exits with status 1, and nothing is sent.  With a key it sends its one
    request, prints the answer or, when the call fails, the error, and ends
    normally. *)
Theorem start_script_outcomes complete api_key s :
  match api_key with
  | Some (String c key) =>
      Start.script complete api_key s
      = (Normal tt,
         Start.mkState
           (Start.requests s ++ [Start.start_request])
           (Start.stdout s
            ++ [match complete Start.start_request with
                | Returns text => Start.Response text
                | Raises e => Start.CallError e
                end]))
  | _ =>
      Start.script complete api_key s
      = (Abrupt (SystemExit 1),
         Start.mkState (Start.requests s) (Start.stdout s ++ [Start.MissingKey]))
  end.
Proof.
  destruct api_key as [[|c key]|]; try reflexivity.
  unfold Start.script. erewrite bind_normal by reflexivity.
  unfold try_except, bind, Start.create.
  destruct (complete Start.start_request); reflexivity.
Qed.

(* ===================================================================== *)
(** * Instances *)
(* ===================================================================== *)

Lemma print_only_touches_no_file_witness :
  Researcher.written
    (exec (Researcher.main echo_stub (fun _ => false) (fun _ => None) (fun _ => None)
             "2026-01-01 00:00:00" (Researcher.mkArgs "Black Holes" 3 "out" true))
          Researcher.initial)
  = [].
Proof.
  apply (print_only_touches_no_file echo_stub (fun _ => false) (fun _ => None)
           (fun _ => None) "2026-01-01 00:00:00"
           (Researcher.mkArgs "Black Holes" 3 "out" true) Researcher.initial).
  reflexivity.
Defined.

Lemma main_success_saves_report_witness :
  Researcher.written
    (exec (Researcher.main (fun _ => Returns "report") (fun _ => false)
             (fun _ => None) (fun _ => None) "2026-01-01 00:00:00"
             (Researcher.mkArgs "Black Holes" 3 "out" false))
          Researcher.initial)
  = [("out/Black_Holes.md",
      (Researcher.header "Black Holes" "2026-01-01 00:00:00" ++ "report")%string)].
Proof.
  apply (main_success_saves_report (fun _ => Returns "report") (fun _ => false)
           (fun _ => None) (fun _ => None) "2026-01-01 00:00:00"
           (Researcher.mkArgs "Black Holes" 3 "out" false) "report"
           Researcher.initial);
    try reflexivity.
  simpl. lia.
Defined.

Lemma main_remote_failure_exits_witness :
  result (Researcher.main (fun _ => Raises (OpenAIError "quota")) (fun _ => true)
            (fun _ => None) (fun _ => None) "2026-01-01 00:00:00"
            (Researcher.mkArgs "Black Holes" 3 "." false))
         Researcher.initial
  = Abrupt (SystemExit 1).
Proof.
  apply (main_remote_failure_exits (fun _ => Raises (OpenAIError "quota"))
           (fun _ => true) (fun _ => None) (fun _ => None) "2026-01-01 00:00:00"
           (Researcher.mkArgs "Black Holes" 3 "." false) (OpenAIError "quota")
           Researcher.initial);
    try reflexivity.
  simpl. lia.
Defined.

Lemma main_save_error_exits_witness :
  result (Researcher.main (fun _ => Returns "report") (fun _ => true)
            (fun _ => None) (fun _ => Some (IOError "denied")) "2026-01-01 00:00:00"
            (Researcher.mkArgs "Black Holes" 3 "." false))
         Researcher.initial
  = Abrupt (SystemExit 1).
Proof.
  apply (main_save_error_exits (fun _ => Returns "report") (fun _ => true)
           (fun _ => None) (fun _ => Some (IOError "denied")) "2026-01-01 00:00:00"
           (Researcher.mkArgs "Black Holes" 3 "." false) "report" (IOError "denied")
           Researcher.initial);
    try reflexivity.
  simpl. lia.
Defined.

Lemma main_makedirs_failure_propagates_witness :
  Researcher.main echo_stub (fun _ => false) (fun _ => Some (IOError "denied"))
    (fun _ => None) "2026-01-01 00:00:00"
    (Researcher.mkArgs "Black Holes" 3 "out" false) Researcher.initial
  = (Abrupt (Exc (IOError "denied")), Researcher.initial).
Proof.
  apply main_makedirs_failure_propagates; try reflexivity.
  simpl. lia.
Defined.

Lemma script_missing_key_exits_witness :
  Researcher.requests
    (exec (Researcher.script echo_stub (fun _ => true) (fun _ => None) (fun _ => None)
             "2026-01-01 00:00:00" None
             (Researcher.mkArgs "Black Holes" 3 "." false))
          Researcher.initial)
  = [].
Proof.
  unfold exec.
  rewrite (script_missing_key_exits echo_stub (fun _ => true) (fun _ => None)
             (fun _ => None) "2026-01-01 00:00:00" None
             (Researcher.mkArgs "Black Holes" 3 "." false) Researcher.initial
             (or_introl eq_refl)).
  reflexivity.
Defined.

Lemma web_failed_exchange_keeps_user_turn_witness :
  let complete :=
    fun _ : Request =>
      StreamReturns (mkStream [Some "par"; None; Some "tial"]
                              (Some (OpenAIError "reset"))) in
  WebChat.session_messages
    (exec (WebChat.script complete true (Some "hi")) WebChat.fresh)
  = Some [mkTurn system WebChat.system_prompt; mkTurn user "hi"].
Proof.
  intros complete.
  apply (web_failed_exchange_keeps_user_turn complete "h" "i" WebChat.fresh
           (OpenAIError "reset")).
  right. eexists. reflexivity.
Defined.

Lemma streamed_reply_is_joined_fragments_witness :
  let complete :=
    fun _ : Request => StreamReturns (mkStream [Some "Hel"; None; Some "lo"] None) in
  WebChat.messages_of
    (exec (WebChat.script complete true (Some "hi")) WebChat.fresh)
  = [mkTurn system WebChat.system_prompt; mkTurn user "hi";
     mkTurn assistant "Hello"].
Proof.
  intros complete.
  destruct (streamed_reply_is_joined_fragments complete "h" "i" WebChat.fresh
              (exec (WebChat.script complete true (Some "hi")) WebChat.fresh)
              eq_refl) as (_ & st & E & _ & H).
  rewrite H. injection E as <-. reflexivity.
Defined.

Lemma web_requests_match_history_witness :
  web_log_agrees
    (exec (WebChat.script (fun _ => StreamRaises (OpenAIError "quota")) true
             (Some "hi"))
          WebChat.fresh).
Proof.
  apply web_requests_match_history.
  apply reach_run, reach_fresh.
Defined.
